(** * Feller Wiser integration: websocket supervisor, event router, API client
      and device handles, embedded in Rocq.

    The development follows the layout of [custom_components/fellerwiser]:
    - [Py]            the fragment of Python's object model the code relies on
                      (JSON values, exceptions, [in], [[]], [==], truthiness,
                      [int]/[float] arithmetic on IEEE binary64, [round]);
    - [Eff]           a state-and-exception monad over the outside world
                      (HTTP and websocket peers are oracles, every log line,
                      sleep and host notification is recorded);
    - [feller_client] [FellerApiClient];
    - [light], [cover], [climate]   the three device handles;
    - [main]          the registry [WISER_ENTITIES], the event router and the
                      connection supervisor [establish_websocket].            *)

From Stdlib Require Import ZArith Lia Bool List String Ascii DecimalString Floats.
From stdpp Require Import base list strings.
Import ListNotations.

#[local] Open Scope string_scope.
#[local] Open Scope list_scope.
#[local] Open Scope Z_scope.
#[local] Set Warnings "-inexact-float,-register-all".

(* ===================================================================== *)
(** ** Python values and exceptions                                       *)
(* ===================================================================== *)

Module Py.

(** Exception classes that occur in the code, directly or through the
    libraries it calls. Messages are not modelled, except the key of a
    [KeyError] and the name of an [UnboundLocalError]. [CancelledError] is
    the one class here that derives from [BaseException] only. *)
Inductive exc : Type :=
| FellerApiException
| ClientError                       (* aiohttp.ClientError and subclasses *)
| TimeoutError
| ConnectionClosed                  (* websockets.exceptions.ConnectionClosed *)
| gaierror                          (* socket.gaierror *)
| ConnectionRefusedError
| KeyError (key : string)
| TypeError
| ValueError
| JSONDecodeError
| OverflowError
| ZeroDivisionError
| UnboundLocalError (name : string)
| OtherException (name : string)    (* any further subclass of Exception *)
| CancelledError.

Definition is_Exception (e : exc) : bool :=
  match e with CancelledError => false | _ => true end.

Definition is_FellerApiException (e : exc) : bool :=
  match e with FellerApiException => true | _ => false end.

Definition is_ClientError (e : exc) : bool :=
  match e with ClientError => true | _ => false end.

Inductive result (A : Type) : Type :=
| Ok (a : A)
| Raise (e : exc).
Arguments Ok {A} a.
Arguments Raise {A} e.

Definition rbind {A B} (r : result A) (k : A -> result B) : result B :=
  match r with Ok a => k a | Raise e => Raise e end.

(** What [json.loads] and [response.json()] produce, and what the handles
    store in their fields. A [dict] is an association list; lookup takes the
    first binding of a key. *)
Inductive value : Type :=
| VNone
| VBool (b : bool)
| VInt (z : Z)
| VFloat (f : float)
| VStr (s : string)
| VList (l : list value)
| VDict (kvs : list (string * value)).

Fixpoint assoc (k : string) (kvs : list (string * value)) : option value :=
  match kvs with
  | [] => None
  | (k', v) :: rest => if String.eqb k k' then Some v else assoc k rest
  end.

Definition is_str (s : string) (v : value) : bool :=
  match v with VStr t => String.eqb t s | _ => false end.

Definition is_substring (s t : string) : bool :=
  match String.index 0 s t with Some _ => true | None => false end.

(** [key in v] for a string [key]. *)
Definition contains (key : string) (v : value) : result bool :=
  match v with
  | VDict kvs => Ok (match assoc key kvs with Some _ => true | None => false end)
  | VList l => Ok (existsb (is_str key) l)
  | VStr t => Ok (is_substring key t)
  | VNone | VBool _ | VInt _ | VFloat _ => Raise TypeError
  end.

(** [v[key]] for a string [key]. *)
Definition getitem (v : value) (key : string) : result value :=
  match v with
  | VDict kvs => match assoc key kvs with Some x => Ok x | None => Raise (KeyError key) end
  | _ => Raise TypeError
  end.

(** [d.get(key, default)] on a [dict]. *)
Definition dict_get (kvs : list (string * value)) (key : string) (default : value) : value :=
  match assoc key kvs with Some x => x | None => default end.

(** *** Numbers *)

Definition Z2SF (z : Z) : spec_float :=
  match z with
  | Z0 => S754_zero false
  | Zpos p => S754_finite false p 0
  | Zneg p => S754_finite true p 0
  end.

(** [float(z)]: the nearest binary64 value, ties to even. *)
Definition int_to_float (z : Z) : result float :=
  let f := SF2Prim (binary_normalize prec emax z 0 false) in
  if is_infinity f then Raise OverflowError else Ok f.

(** [a / b] on two [int]s: the correctly rounded quotient. *)
Definition int_truediv (a b : Z) : result float :=
  if b =? 0 then Raise ZeroDivisionError
  else
    let f := SF2Prim (SFdiv prec emax (Z2SF a) (Z2SF b)) in
    if is_infinity f then Raise OverflowError else Ok f.

(** The exact integer nearest to a finite float, ties to even: [round(x)]. *)
Definition round (x : float) : result Z :=
  match Prim2SF x with
  | S754_zero _ => Ok 0
  | S754_finite s m e =>
      let a :=
        if e <? 0 then
          let d := 2 ^ (- e) in
          let q := Z.pos m / d in
          let r := Z.pos m mod d in
          match 2 * r ?= d with
          | Lt => q
          | Gt => q + 1
          | Eq => if Z.even q then q else q + 1
          end
        else Z.pos m * 2 ^ e in
      Ok (if s then - a else a)
  | S754_infinity _ => Raise OverflowError
  | S754_nan => Raise ValueError
  end.

(** A number as a float operand of mixed arithmetic. *)
Definition as_float (v : value) : result float :=
  match v with
  | VInt z => int_to_float z
  | VBool b => Ok (if b then 1%float else 0%float)
  | VFloat f => Ok f
  | _ => Raise TypeError
  end.

(** [v * k] and [v / k] for a float literal [k]. *)
Definition mul_float (v : value) (k : float) : result float :=
  rbind (as_float v) (fun f => Ok (f * k)%float).

Definition div_float (v : value) (k : float) : result float :=
  rbind (as_float v) (fun f =>
    if is_zero k then Raise ZeroDivisionError else Ok (f / k)%float).

(** [v / n] for an [int] literal [n]. *)
Definition div_int (v : value) (n : Z) : result float :=
  match v with
  | VInt z => int_truediv z n
  | VBool b => int_truediv (if b then 1 else 0) n
  | VFloat f =>
      rbind (int_to_float n) (fun d =>
        if is_zero d then Raise ZeroDivisionError else Ok (f / d)%float)
  | _ => Raise TypeError
  end.

(** [n - v] for an [int] literal [n]. *)
Definition int_sub (n : Z) (v : value) : result value :=
  match v with
  | VInt z => Ok (VInt (n - z))
  | VBool b => Ok (VInt (n - (if b then 1 else 0)))
  | VFloat f => rbind (int_to_float n) (fun x => Ok (VFloat (x - f)%float))
  | _ => Raise TypeError
  end.

(** [v * n] for an [int] literal [n] and a number [v]. *)
Definition mul_int (v : value) (n : Z) : result value :=
  match v with
  | VInt z => Ok (VInt (z * n))
  | VBool b => Ok (VInt ((if b then 1 else 0) * n))
  | VFloat f => rbind (int_to_float n) (fun x => Ok (VFloat (f * x)%float))
  | _ => Raise TypeError
  end.

(** The exact value of a float compared with an integer. *)
Definition float_cmp_int (f : float) (n : Z) : option comparison :=
  match Prim2SF f with
  | S754_nan => None
  | S754_infinity s => Some (if s then Lt else Gt)
  | S754_zero _ => Some (0 ?= n)
  | S754_finite s m e =>
      let sg (z : Z) := if s then - z else z in
      if e <? 0 then Some (sg (Z.pos m) ?= n * 2 ^ (- e))
      else Some (sg (Z.pos m * 2 ^ e) ?= n)
  end.

(** [v > n], [v >= n], [v <= n] and [v == n] for an [int] [n]. *)
Definition cmp_int (v : value) (n : Z) : result (option comparison) :=
  match v with
  | VInt z => Ok (Some (z ?= n))
  | VBool b => Ok (Some ((if b then 1 else 0) ?= n))
  | VFloat f => Ok (float_cmp_int f n)
  | _ => Raise TypeError
  end.

Definition gt_int (v : value) (n : Z) : result bool :=
  rbind (cmp_int v n) (fun c => Ok (match c with Some Gt => true | _ => false end)).

Definition ge_int (v : value) (n : Z) : result bool :=
  rbind (cmp_int v n) (fun c =>
    Ok (match c with Some Gt | Some Eq => true | _ => false end)).

Definition le_int (v : value) (n : Z) : result bool :=
  rbind (cmp_int v n) (fun c =>
    Ok (match c with Some Lt | Some Eq => true | _ => false end)).

(** [==] never raises: values of unrelated types are unequal. *)
Definition eq_int (v : value) (n : Z) : bool :=
  match v with
  | VInt z => z =? n
  | VBool b => (if b then 1 else 0) =? n
  | VFloat f => match float_cmp_int f n with Some Eq => true | _ => false end
  | _ => false
  end.

(** Truth value of an object, as tested by [if v:] and [not v]. *)
Definition truthy (v : value) : bool :=
  match v with
  | VNone => false
  | VBool b => b
  | VInt z => negb (z =? 0)
  | VFloat f => negb (is_zero f)
  | VStr s => match s with EmptyString => false | String _ _ => true end
  | VList l => match l with [] => false | _ => true end
  | VDict kvs => match kvs with [] => false | _ => true end
  end.

(** [str(z)] and [f"{z}"] for an [int]. *)
Definition str_of_int (z : Z) : string := NilEmpty.string_of_int (Z.to_int z).

End Py.
Export Py.

(* ===================================================================== *)
(** ** Effects: the outside world, local state, exceptions                *)
(* ===================================================================== *)

Module Eff.

(** What an observer of the running integration sees, in order. *)
Inductive event : Type :=
| Log (level msg : string)                      (* _LOGGER.<level>(msg, ...) *)
| Sleep (seconds : Z)                           (* await asyncio.sleep(seconds) *)
| HttpRequest (method url : string) (body : value)
| WsConnect (url : string)                      (* websockets.connect(url, ...) *)
| WsClose                                       (* leaving [async with ... as ws] *)
| WsRecv                                        (* ws.recv() *)
| WsPing                                        (* ws.ping() and the wait for the pong *)
| ScheduleUpdate (entity : string)              (* self.schedule_update_ha_state() *)
| WriteState (entity : string).                 (* self.async_write_ha_state() *)

(** An HTTP exchange: [session.request] raises, or a response arrives whose
    [json()] yields a value or raises. *)
Inductive http_outcome : Type :=
| HttpResponse (status : Z) (body : result value)
| HttpRaises (e : exc).

(** A websocket frame as [json.loads] sees it. *)
Inductive frame : Type :=
| Json (v : value)
| NotJson.

(** The peers are scripts: the [n]-th request, connection attempt, receive
    and ping get the [n]-th answer. *)
Record script : Type := Script {
  http : nat -> http_outcome;
  connects : nat -> result unit;
  recvs : nat -> result frame;
  pings : nat -> result unit
}.

(** How many requests, connection attempts, receives and pings the program
    has issued so far, and what it has done that can be observed. *)
Record world : Type := World {
  n_http : nat;
  n_connect : nat;
  n_recv : nat;
  n_ping : nat;
  trace : list event
}.

(** A computation over local state [St] (the fields of [self], or the
    registry) and the world, against the scripts of the peers. A raised
    exception keeps the writes made before it. *)
Definition M (St A : Type) : Type := script -> St -> world -> St * world * result A.

Definition ret {St A} (a : A) : M St A := fun _ s w => (s, w, Ok a).

Definition bind {St A B} (c : M St A) (k : A -> M St B) : M St B :=
  fun env s w =>
    match c env s w with
    | (s', w', Ok a) => k a env s' w'
    | (s', w', Raise e) => (s', w', Raise e)
    end.

Definition raise {St A} (e : exc) : M St A := fun _ s w => (s, w, Raise e).

(** [try: c  except <classes accepted by handles>: h e]. *)
Definition try_except {St A} (c : M St A) (handles : exc -> bool) (h : exc -> M St A)
  : M St A :=
  fun env s w =>
    match c env s w with
    | (s', w', Raise e) => if handles e then h e env s' w' else (s', w', Raise e)
    | r => r
    end.

Definition lift {St A} (r : result A) : M St A := fun _ s w => (s, w, r).

Definition get {St} : M St St := fun _ s w => (s, w, Ok s).
Definition put {St} (s : St) : M St unit := fun _ _ w => (s, w, Ok tt).
Definition modify {St} (f : St -> St) : M St unit := fun _ s w => (f s, w, Ok tt).

Definition emit {St} (e : event) : M St unit :=
  fun _ s w =>
    (s, World (n_http w) (n_connect w) (n_recv w) (n_ping w) (trace w ++ [e]), Ok tt).

Definition log {St} (level msg : string) : M St unit := emit (Log level msg).
Definition sleep {St} (seconds : Z) : M St unit := emit (Sleep seconds).

Definition next_http {St} : M St http_outcome :=
  fun env s w =>
    (s, World (S (n_http w)) (n_connect w) (n_recv w) (n_ping w) (trace w),
     Ok (http env (n_http w))).

(** A successful attempt yields its own number, which names the session. *)
Definition next_connect {St} : M St nat :=
  fun env s w =>
    (s, World (n_http w) (S (n_connect w)) (n_recv w) (n_ping w) (trace w),
     rbind (connects env (n_connect w)) (fun _ => Ok (n_connect w))).

Definition next_recv {St} : M St frame :=
  fun env s w =>
    (s, World (n_http w) (n_connect w) (S (n_recv w)) (n_ping w) (trace w),
     recvs env (n_recv w)).

Definition next_ping {St} : M St unit :=
  fun env s w =>
    (s, World (n_http w) (n_connect w) (n_recv w) (S (n_ping w)) (trace w),
     pings env (n_ping w)).

(** Run a method of the [i]-th object of a list on that object; the other
    objects are not touched. *)
Definition at_index {St A} (i : nat) (c : M St A) : M (list St) A :=
  fun env l w =>
    match l !! i with
    | Some s => match c env s w with (s', w', r) => (<[i := s']> l, w', r) end
    | None => (l, w, Raise (OtherException "IndexError"))
    end.

(** The world before anything has happened. *)
Definition initial : world := World 0 0 0 0 [].

Definition sleeps (t : list event) : list Z :=
  flat_map (fun e => match e with Sleep n => [n] | _ => [] end) t.

Definition requests (t : list event) : list event :=
  List.filter (fun e => match e with HttpRequest _ _ _ => true | _ => false end) t.

End Eff.
Export Eff.

Notation "'do' x <- c ; k" := (Eff.bind c (fun x => k))
  (at level 10, x name, c at level 100, k at level 200).
Notation "'run' c ; k" := (Eff.bind c (fun _ => k))
  (at level 10, c at level 100, k at level 200).

(* ===================================================================== *)
(** ** feller_client.py                                                   *)
(* ===================================================================== *)

Module feller_client.

Record FellerApiResult : Type := mkResult {
  status_code : Z;
  data : value
}.

Record FellerApiClient : Type := mkClient {
  _host : string;
  _apiKey : string;
  _request_timeout_seconds : Z
}.

Section Client.
Context {St : Type}.
Variable self : FellerApiClient.

(** What the body of [async with ... as response] does with one exchange. *)
Definition handle_response (endpoint method : string) (o : http_outcome)
  : M St FellerApiResult :=
  match o with
  | HttpRaises e => raise e
  | HttpResponse status body =>
      if 400 <=? status then
        run log "error" "Wiser API request to endpoint %s with method %s was unsuccessful: response code %s";
        raise FellerApiException
      else
        do data <- lift body;
        do st <- lift (getitem data "status");
        if is_str "success" st then
          run log "debug" "Wiser API request to endpoint %s with method %s was successful";
          do payload <- lift (getitem data "data");
          ret (mkResult status payload)
        else
          run log "error" "Wiser API request to endpoint %s with method %s was unsuccessful: response code %s";
          raise FellerApiException
  end.

Definition _send_request_async (endpoint method : string) (data : value)
  : M St FellerApiResult :=
  let url := "http://" +:+ _host self +:+ "/api/" +:+ endpoint in
  run log "debug" "Sending request to %s";
  try_except
    (run emit (HttpRequest method url data);
     do o <- next_http;
     handle_response endpoint method o)
    is_ClientError
    (fun e =>
       run log "error" "Wiser API request to endpoint %s with method %s failed: %s";
       raise FellerApiException).

(** The body of [for i in range(retry_count)], for the [left] values of [i]
    that remain. *)
Fixpoint retry_loop (left : nat) (i : Z) (endpoint method : string) (data : value)
  : M St FellerApiResult :=
  match left with
  | O => raise FellerApiException
  | S left' =>
      try_except
        (_send_request_async endpoint method data)
        is_FellerApiException
        (fun e => run sleep (i + 1); retry_loop left' (i + 1) endpoint method data)
  end.

Definition _send_request_with_retry_async
  (endpoint : string) (retry_count : Z) (method : string) (data : value)
  : M St FellerApiResult :=
  retry_loop (Z.to_nat retry_count) 0 endpoint method data.

Definition get_all_loads_async : M St FellerApiResult :=
  _send_request_async "loads" "GET" VNone.

Definition get_all_hvac_groups_async : M St FellerApiResult :=
  _send_request_async "hvacgroups" "GET" VNone.

Definition get_hvac_group_async (group_id : Z) (retry_count : Z) : M St FellerApiResult :=
  _send_request_with_retry_async ("hvacgroups/" +:+ str_of_int group_id) retry_count "GET" VNone.

Definition get_load_async (load_id : Z) (retry_count : Z) : M St FellerApiResult :=
  _send_request_with_retry_async ("loads/" +:+ str_of_int load_id) retry_count "GET" VNone.

Definition set_hvac_group_temperature_async (group_id : Z) (target_temperature : value)
  : M St FellerApiResult :=
  _send_request_async ("hvacgroups/" +:+ str_of_int group_id +:+ "/target_state") "PUT"
    (VDict [("target_temperature", target_temperature)]).

Definition set_hvac_group_state_async (group_id : Z) (on : bool) : M St FellerApiResult :=
  _send_request_async ("hvacgroups/" +:+ str_of_int group_id +:+ "/target_state") "PUT"
    (VDict [("on", VBool on)]).

Definition send_load_ctrl_event_async (load_id : Z) (body : value) : M St FellerApiResult :=
  _send_request_async ("loads/" +:+ str_of_int load_id +:+ "/ctrl") "PUT" body.

Definition set_light_brightness_async (light_id : Z) (brightness : value)
  : M St FellerApiResult :=
  _send_request_async ("loads/" +:+ str_of_int light_id +:+ "/target_state") "PUT"
    (VDict [("bri", brightness)]).

Definition set_cover_level_async (cover_id : Z) (level : value) : M St FellerApiResult :=
  _send_request_async ("loads/" +:+ str_of_int cover_id +:+ "/target_state") "PUT"
    (VDict [("level", level)]).

End Client.

(** The default of the [retry_count] parameter of the two retried reads. *)
Definition default_retry_count : Z := 5.

End feller_client.

(* ===================================================================== *)
(** ** light.py                                                           *)
(* ===================================================================== *)

Module light.
Import feller_client.

Record FellerLight : Type := mkLight {
  _name : string;
  _id : string;
  _wiser_id : Z;
  _is_on : option bool;
  _brightness : value;
  _client : FellerApiClient;
  _type : string
}.

(** The fields as [__init__] leaves them, given [data["name"]], [data["id"]]
    and [data["type"]]. *)
Definition init (name : string) (id : Z) (type : string) (client : FellerApiClient)
  : FellerLight :=
  mkLight name (str_of_int id) id None VNone client type.

Definition set_is_on (b : bool) (s : FellerLight) : FellerLight :=
  mkLight (_name s) (_id s) (_wiser_id s) (Some b) (_brightness s) (_client s) (_type s).

Definition set_brightness (v : value) (s : FellerLight) : FellerLight :=
  mkLight (_name s) (_id s) (_wiser_id s) (_is_on s) v (_client s) (_type s).

Section Commands.
(** [homeassistant.components.light.ATTR_BRIGHTNESS], a constant of the host
    platform. *)
Variable ATTR_BRIGHTNESS : string.

Definition async_turn_on (kwargs : list (string * value)) : M FellerLight unit :=
  do self <- get;
  if negb (truthy (VDict kwargs)) then
    do _r <- send_load_ctrl_event_async (_client self) (_wiser_id self)
               (VDict [("button", VStr "on"); ("event", VStr "click")]);
    run modify (set_is_on true);
    do result <- get_load_async (_client self) (_wiser_id self) default_retry_count;
    do st <- lift (getitem (data result) "state");
    do bri <- lift (getitem st "bri");
    do b <- lift (div_float bri 39.22);
    modify (set_brightness (VFloat b))
  else
    run modify (set_brightness (dict_get kwargs ATTR_BRIGHTNESS (VInt 255)));
    do self <- get;
    do scaled <- lift (mul_float (_brightness self) 39.22);
    do rounded <- lift (round scaled);
    let convertedBrightness := if 10000 <? rounded then 10000 else rounded in
    do result <- set_light_brightness_async (_client self) (_wiser_id self)
                   (VInt convertedBrightness);
    run modify (set_is_on true);
    do ts <- lift (getitem (data result) "target_state");
    do bri <- lift (getitem ts "bri");
    do b <- lift (div_float bri 39.22);
    modify (set_brightness (VFloat b)).

End Commands.

(** [message["state"]["flags"]["fading"] == 1], with [KeyError] swallowed. *)
Definition is_fading (message : value) : M FellerLight bool :=
  try_except
    (do st <- lift (getitem message "state");
     do flags <- lift (getitem st "flags");
     do fading <- lift (getitem flags "fading");
     ret (eq_int fading 1))
    (fun e => match e with KeyError _ => true | _ => false end)
    (fun _ => ret false).

Definition update_from_websocket_message (message : value) : M FellerLight unit :=
  do self <- get;
  do has_load <- lift (contains "load" message);
  if negb has_load then
    log "debug" "No load in websocket message, skipping update of light with id %s"
  else
    do message <- lift (getitem message "load");
    do has_state <- lift (contains "state" message);
    if negb has_state then
      log "debug" "No state in websocket message, skipping update of light with id %s"
    else
      do fading <- is_fading message;
      if fading then ret tt
      else
        do st <- lift (getitem message "state");
        do has_bri <- lift (contains "bri" st);
        if negb has_bri then
          log "debug" "No bri in websocket message, skipping update of light with id %s"
        else
          do bri <- lift (getitem st "bri");
          match bri with
          | VNone =>
              run modify (set_brightness (VInt 0));
              run modify (set_is_on false);
              emit (ScheduleUpdate (_id self))
          | _ =>
              if eq_int bri 0 then
                run modify (set_is_on false);
                run modify (set_brightness (VInt 0));
                emit (ScheduleUpdate (_id self))
              else
                do b <- lift (div_float bri 39.22);
                run modify (set_brightness (VFloat b));
                run modify (set_is_on true);
                emit (ScheduleUpdate (_id self))
          end.

Definition async_turn_off : M FellerLight unit :=
  do self <- get;
  do _r <- send_load_ctrl_event_async (_client self) (_wiser_id self)
             (VDict [("button", VStr "off"); ("event", VStr "click")]);
  run modify (set_is_on false);
  do result <- get_load_async (_client self) (_wiser_id self) default_retry_count;
  do st <- lift (getitem (data result) "state");
  do bri <- lift (getitem st "bri");
  do b <- lift (div_float bri 39.22);
  modify (set_brightness (VFloat b)).

Definition async_update : M FellerLight unit :=
  do self <- get;
  do result <- get_load_async (_client self) (_wiser_id self) default_retry_count;
  run log "debug" "Got the following state for light %s: %s";
  do has_state <- lift (contains "state" (data result));
  if negb has_state then
    log "debug" "No state in update response for light %s"
  else
    do st <- lift (getitem (data result) "state");
    do bri <- lift (getitem st "bri");
    match bri with
    | VNone =>
        run modify (set_brightness (VInt 0));
        modify (set_is_on false)
    | _ =>
        do positive <- lift (gt_int bri 0);
        run (if positive then modify (set_is_on true) else modify (set_is_on false));
        do b <- lift (div_float bri 39.22);
        modify (set_brightness (VFloat b))
    end.

End light.

(* ===================================================================== *)
(** ** cover.py                                                           *)
(* ===================================================================== *)

Module cover.
Import feller_client.

Record FellerCover : Type := mkCover {
  _state : option bool;
  _data : value;
  _name : string;
  _id : string;
  _wiser_id : Z;
  _is_opening : bool;
  _is_closing : bool;
  _is_opened : bool;
  _is_closed : bool;
  _is_partially_opened : bool;
  _position : value;
  _client : FellerApiClient
}.

(** The fields as [__init__] leaves them, given [data], [data["name"]] and
    [data["id"]]. *)
Definition init (data : value) (name : string) (id : Z) (client : FellerApiClient)
  : FellerCover :=
  mkCover None data name (str_of_int id) id false false false false false VNone client.

Definition set_state (b : bool) (s : FellerCover) : FellerCover :=
  mkCover (Some b) (_data s) (_name s) (_id s) (_wiser_id s) (_is_opening s)
    (_is_closing s) (_is_opened s) (_is_closed s) (_is_partially_opened s)
    (_position s) (_client s).

Definition set_position (v : value) (s : FellerCover) : FellerCover :=
  mkCover (_state s) (_data s) (_name s) (_id s) (_wiser_id s) (_is_opening s)
    (_is_closing s) (_is_opened s) (_is_closed s) (_is_partially_opened s)
    v (_client s).

(** [self._is_closing = closing; self._is_opening = opening]. *)
Definition set_moving (closing opening : bool) (s : FellerCover) : FellerCover :=
  mkCover (_state s) (_data s) (_name s) (_id s) (_wiser_id s) opening
    closing (_is_opened s) (_is_closed s) (_is_partially_opened s)
    (_position s) (_client s).

(** [self._is_closed = closed; self._is_opened = opened;
     self._is_partially_opened = partial]. *)
Definition set_open_flags (closed opened partial : bool) (s : FellerCover) : FellerCover :=
  mkCover (_state s) (_data s) (_name s) (_id s) (_wiser_id s) (_is_opening s)
    (_is_closing s) opened closed partial (_position s) (_client s).

(** [self._position = 100 - (level / 100)]. *)
Definition store_position (level : value) : M FellerCover unit :=
  do q <- lift (div_int level 100);
  do p <- lift (int_sub 100 (VFloat q));
  modify (set_position p).

Section Commands.
(** [homeassistant.components.cover.ATTR_POSITION], a constant of the host
    platform. *)
Variable ATTR_POSITION : string.

(** The three statements that end each of the three positioning commands. *)
Definition store_target (result : FellerApiResult) : M FellerCover unit :=
  run modify (set_state true);
  do ts <- lift (getitem (data result) "target_state");
  do level <- lift (getitem ts "level");
  store_position level.

Definition async_open_cover (kwargs : list (string * value)) : M FellerCover unit :=
  run modify (set_position (dict_get kwargs ATTR_POSITION (VInt 100)));
  do self <- get;
  do result <- set_cover_level_async (_client self) (_wiser_id self) (VInt 0);
  store_target result.

Definition async_close_cover (kwargs : list (string * value)) : M FellerCover unit :=
  run modify (set_position (dict_get kwargs ATTR_POSITION (VInt 100)));
  do self <- get;
  do result <- set_cover_level_async (_client self) (_wiser_id self) (VInt 10000);
  store_target result.

Definition async_set_cover_position (kwargs : list (string * value)) : M FellerCover unit :=
  run modify (set_position (dict_get kwargs ATTR_POSITION (VInt 100)));
  do self <- get;
  do inverted <- lift (int_sub 100 (_position self));
  do level <- lift (mul_int inverted 100);
  do result <- set_cover_level_async (_client self) (_wiser_id self) level;
  store_target result.

End Commands.

Definition async_stop_cover : M FellerCover unit :=
  do self <- get;
  do _r <- send_load_ctrl_event_async (_client self) (_wiser_id self)
             (VDict [("button", VStr "stop"); ("event", VStr "click")]);
  ret tt.

Definition update_from_websocket_message (message : value) : M FellerCover unit :=
  do self <- get;
  do has_load <- lift (contains "load" message);
  if negb has_load then
    log "debug" "No load in websocket message, skipping update of cover with id %s"
  else
    do message <- lift (getitem message "load");
    do has_state <- lift (contains "state" message);
    if negb has_state then
      log "debug" "No state in websocket message, skipping update of cover with id %s"
    else
      do st <- lift (getitem message "state");
      do position <- lift (getitem st "level");
      do st <- lift (getitem message "state");
      do moving <- lift (getitem st "moving");
      run store_position position;
      run (if is_str "stop" moving then modify (set_moving false false) else ret tt);
      run (if is_str "up" moving then modify (set_moving false true) else ret tt);
      run (if is_str "down" moving then modify (set_moving true false) else ret tt);
      do self <- get;
      do fully_open <- lift (ge_int (_position self) 100);
      run (if fully_open then modify (set_open_flags false true false)
           else
             do fully_closed <- lift (le_int (_position self) 0);
             if fully_closed then modify (set_open_flags true false false)
             else modify (set_open_flags false false true));
      emit (ScheduleUpdate (_id self)).

Definition async_update : M FellerCover unit :=
  do self <- get;
  do result <- get_load_async (_client self) (_wiser_id self) default_retry_count;
  do st <- lift (getitem (data result) "state");
  do level <- lift (getitem st "level");
  run store_position level;
  do st <- lift (getitem (data result) "state");
  do moving <- lift (getitem st "moving");
  run (if is_str "stop" moving then modify (set_moving false false) else ret tt);
  do st <- lift (getitem (data result) "state");
  do moving <- lift (getitem st "moving");
  run (if is_str "up" moving then modify (set_moving false true) else ret tt);
  do st <- lift (getitem (data result) "state");
  do moving <- lift (getitem st "moving");
  run (if is_str "down" moving then modify (set_moving true false) else ret tt);
  do self <- get;
  do fully_open <- lift (ge_int (_position self) 100);
  if fully_open then modify (set_open_flags false true false)
  else
    do fully_closed <- lift (le_int (_position self) 0);
    if fully_closed then modify (set_open_flags true false false)
    else modify (set_open_flags false false true).

End cover.

(* ===================================================================== *)
(** ** climate.py                                                         *)
(* ===================================================================== *)

Module climate.
Import feller_client.

(** The members of the host platform's enumerations that the code uses. *)
Inductive HVACMode : Type := OFF | HEAT.
Inductive HVACAction : Type := HEATING | IDLE.

Record FellerHvacGroup : Type := mkGroup {
  _name : string;
  _id : string;
  _wiser_id : Z;
  _load_ids : value;
  _client : FellerApiClient;
  _current_temperature : value;
  _target_temperature : value;
  _hvac_mode : option HVACMode;
  _hvac_action : option HVACAction;
  _min_temp : value;
  _max_temp : value
}.

(** The fields as [__init__] leaves them, given [group["name"]], [group["id"]]
    and [group["loads"]]. *)
Definition init (name : string) (id : Z) (loads : value) (client : FellerApiClient)
  : FellerHvacGroup :=
  mkGroup name (str_of_int id) id loads client VNone VNone None None VNone VNone.

Definition set_current_temperature (v : value) (s : FellerHvacGroup) : FellerHvacGroup :=
  mkGroup (_name s) (_id s) (_wiser_id s) (_load_ids s) (_client s) v
    (_target_temperature s) (_hvac_mode s) (_hvac_action s) (_min_temp s) (_max_temp s).

Definition set_target_temperature (v : value) (s : FellerHvacGroup) : FellerHvacGroup :=
  mkGroup (_name s) (_id s) (_wiser_id s) (_load_ids s) (_client s)
    (_current_temperature s) v (_hvac_mode s) (_hvac_action s) (_min_temp s) (_max_temp s).

Definition set_hvac_mode (m : HVACMode) (s : FellerHvacGroup) : FellerHvacGroup :=
  mkGroup (_name s) (_id s) (_wiser_id s) (_load_ids s) (_client s)
    (_current_temperature s) (_target_temperature s) (Some m) (_hvac_action s)
    (_min_temp s) (_max_temp s).

Definition set_hvac_action (a : HVACAction) (s : FellerHvacGroup) : FellerHvacGroup :=
  mkGroup (_name s) (_id s) (_wiser_id s) (_load_ids s) (_client s)
    (_current_temperature s) (_target_temperature s) (_hvac_mode s) (Some a)
    (_min_temp s) (_max_temp s).

Definition _update_from_state (state : value) : M FellerHvacGroup unit :=
  do ambient <- lift (getitem state "ambient_temperature");
  run modify (set_current_temperature ambient);
  do target <- lift (getitem state "target_temperature");
  run modify (set_target_temperature target);
  do on <- lift (getitem state "on");
  run (if truthy on then modify (set_hvac_mode HEAT) else modify (set_hvac_mode OFF));
  do heating_level <- lift (getitem state "heating_cooling_level");
  do heating <- lift (gt_int heating_level 0);
  if heating then modify (set_hvac_action HEATING) else modify (set_hvac_action IDLE).

Definition update_from_websocket_message (message : value) : M FellerHvacGroup unit :=
  do self <- get;
  do has_group <- lift (contains "hvacgroup" message);
  if negb has_group then
    log "debug" "No hvacgroup in websocket message, skipping update of hvacgroup with id %s"
  else
    do message <- lift (getitem message "hvacgroup");
    do has_state <- lift (contains "state" message);
    if negb has_state then
      log "debug" "No state in websocket message, skipping update of cover with id %s"
    else
      do st <- lift (getitem message "state");
      run _update_from_state st;
      emit (ScheduleUpdate (_id self)).

Definition async_turn_on : M FellerHvacGroup unit :=
  do self <- get;
  do _r <- set_hvac_group_state_async (_client self) (_wiser_id self) true;
  run modify (set_hvac_mode HEAT);
  emit (WriteState (_id self)).

Definition async_turn_off : M FellerHvacGroup unit :=
  do self <- get;
  do _r <- set_hvac_group_state_async (_client self) (_wiser_id self) false;
  run modify (set_hvac_mode OFF);
  emit (WriteState (_id self)).

Definition set_min_temp (v : value) (s : FellerHvacGroup) : FellerHvacGroup :=
  mkGroup (_name s) (_id s) (_wiser_id s) (_load_ids s) (_client s)
    (_current_temperature s) (_target_temperature s) (_hvac_mode s) (_hvac_action s)
    v (_max_temp s).

Definition set_max_temp (v : value) (s : FellerHvacGroup) : FellerHvacGroup :=
  mkGroup (_name s) (_id s) (_wiser_id s) (_load_ids s) (_client s)
    (_current_temperature s) (_target_temperature s) (_hvac_mode s) (_hvac_action s)
    (_min_temp s) v.

Definition async_set_temperature (kwargs : list (string * value)) : M FellerHvacGroup unit :=
  do self <- get;
  let target_temperature := dict_get kwargs "temperature" VNone in
  do _r <- set_hvac_group_temperature_async (_client self) (_wiser_id self)
             target_temperature;
  emit (WriteState (_id self)).

(** The argument of [async_set_hvac_mode]: one of the two modes the entity
    offers, or another member of the host's enumeration. *)
Inductive requested_mode : Type :=
| Offered (m : HVACMode)
| Other (name : string).

(** [hvac_mode == self._hvac_mode]. *)
Definition same_mode (r : requested_mode) (current : option HVACMode) : bool :=
  match r, current with
  | Offered OFF, Some OFF | Offered HEAT, Some HEAT => true
  | _, _ => false
  end.

Definition async_set_hvac_mode (hvac_mode : requested_mode) : M FellerHvacGroup unit :=
  do self <- get;
  if same_mode hvac_mode (_hvac_mode self) then ret tt
  else
    match hvac_mode with
    | Offered HEAT => async_turn_on
    | Offered OFF => async_turn_off
    | Other _ => log "error" "Unknown hvac mode %s"
    end.

Definition async_update : M FellerHvacGroup unit :=
  do self <- get;
  do result <- get_hvac_group_async (_client self) (_wiser_id self) default_retry_count;
  do st <- lift (getitem (data result) "state");
  run _update_from_state st;
  do lo <- lift (getitem (data result) "min_temperature");
  run modify (set_min_temp lo);
  do hi <- lift (getitem (data result) "max_temperature");
  modify (set_max_temp hi).

End climate.

(* ===================================================================== *)
(** ** main.py                                                            *)
(* ===================================================================== *)

Module main.

(** An element of [WISER_ENTITIES]: an object of one of the three classes. *)
Inductive entity : Type :=
| Light (l : light.FellerLight)
| Cover (c : cover.FellerCover)
| HvacGroup (g : climate.FellerHvacGroup).

(** The property [wiser_entity_id] of the three classes. *)
Definition wiser_entity_id (e : entity) : Z :=
  match e with
  | Light l => light._wiser_id l
  | Cover c => cover._wiser_id c
  | HvacGroup g => climate._wiser_id g
  end.

(** [e.update_from_websocket_message(message)], dispatched on the class. *)
Definition update_from_websocket_message (message : value) : M entity unit :=
  fun env e w =>
    match e with
    | Light l =>
        match light.update_from_websocket_message message env l w with
        | (l', w', r) => (Light l', w', r)
        end
    | Cover c =>
        match cover.update_from_websocket_message message env c w with
        | (c', w', r) => (Cover c', w', r)
        end
    | HvacGroup g =>
        match climate.update_from_websocket_message message env g w with
        | (g', w', r) => (HvacGroup g', w', r)
        end
    end.

(** The module-level list [WISER_ENTITIES] is the local state of this module. *)
Abbreviation registry := (list entity).

Definition _get_wiser_entity_id (message : value) : M registry value :=
  do has_load <- lift (contains "load" message);
  if has_load then
    do load <- lift (getitem message "load");
    do has_id <- lift (contains "id" load);
    if negb has_id then
      run log "debug" "No id in websocket message for load, ignoring";
      ret VNone
    else
      do load <- lift (getitem message "load");
      lift (getitem load "id")
  else
    do has_group <- lift (contains "hvacgroup" message);
    if has_group then
      do group <- lift (getitem message "hvacgroup");
      do has_id <- lift (contains "id" group);
      if negb has_id then
        run log "debug" "No id in websocket message for hvacgroup, ignoring";
        ret VNone
      else
        do group <- lift (getitem message "hvacgroup");
        lift (getitem group "id")
    else ret VNone.

(** The position in [l] of the first element of
    [[e for e in l if e.wiser_entity_id == wiser_entity_id]]. *)
Fixpoint first_match (wiser_entity_id_ : value) (l : registry) : option nat :=
  match l with
  | [] => None
  | e :: rest =>
      if eq_int wiser_entity_id_ (wiser_entity_id e) then Some O
      else option_map S (first_match wiser_entity_id_ rest)
  end.

(** Lines 59 to 72 of [_handle_websocket_message]: the event router. *)
Definition route (message : value) : M registry unit :=
  do wiser_entity_id_ <- _get_wiser_entity_id message;
  match wiser_entity_id_ with
  | VNone => ret tt
  | _ =>
      do WISER_ENTITIES <- get;
      match first_match wiser_entity_id_ WISER_ENTITIES with
      | None => log "debug" "No entity found for id %s"
      | Some i => at_index i (update_from_websocket_message message)
      end
  end.

Definition json_loads (f : frame) : result value :=
  match f with Json v => Ok v | NotJson => Raise JSONDecodeError end.

(** Where control stands after the first [try] statement of
    [_handle_websocket_message]. *)
Inductive after_recv : Type :=
| Received (result : frame)     (* [result] is bound *)
| PingOk                        (* the handler ran to its end; [result] is unbound *)
| Returned.                     (* the handler executed [return] *)

Definition _handle_websocket_message : M registry unit :=
  do r <-
    try_except
      (run emit WsRecv;
       do result <- next_recv;
       ret (Received result))
      (fun e => match e with TimeoutError | ConnectionClosed => true | _ => false end)
      (fun _ =>
         try_except
           (run emit WsPing;
            run next_ping;
            run log "info" "Ping OK, keeping connection alive";
            ret PingOk)
           (fun _ => true)
           (fun _ =>
              run log "info" "Ping error - retrying connection in 10 sec (Ctrl-C to quit)";
              run sleep 10;
              ret Returned));
  match r with
  | Returned => ret tt
  | PingOk => raise (UnboundLocalError "result")
  | Received result =>
      run log "debug" "Reveived the following message form wiser: %s";
      do message <- lift (json_loads result);
      route message
  end.

(** Where the task [establish_websocket] stands between two iterations of
    its loops. *)
Inductive task_state : Type :=
| Disconnected                  (* at the head of the outer [while True] *)
| Connected (session : nat)     (* at the head of the inner one, inside [async with] *)
| Dead (e : exc).               (* the coroutine ended with an exception *)

(** The three [except] clauses of [establish_websocket], in order. *)
Definition on_exception (e : exc) : M registry task_state :=
  match e with
  | gaierror =>
      run log "error" "Websocket connection error, retrying in 10 sec";
      run sleep 10;
      ret Disconnected
  | ConnectionRefusedError =>
      run log "error" "Configured host refused connection, retrying in 10 sec";
      run sleep 10;
      ret Disconnected
  | _ =>
      if is_Exception e then
        run log "error" "Unhadled Exception occured in WebSocket loop: %s";
        ret Disconnected
      else ret (Dead e)
  end.

(** One iteration: of the outer loop up to the connection, or of the inner
    loop. The session of a connection is the number of the attempt that
    opened it. *)
Definition step (host apikey : string) (t : task_state) : M registry task_state :=
  match t with
  | Dead e => ret (Dead e)
  | Disconnected =>
      run log "info" "Creating new websocket connection";
      try_except
        (run emit (WsConnect ("ws://" +:+ host +:+ "/api"));
         do session <- next_connect;
         ret (Connected session))
        (fun _ => true)
        on_exception
  | Connected session =>
      try_except
        (run _handle_websocket_message; ret (Connected session))
        (fun _ => true)
        (fun e => run emit WsClose; on_exception e)
  end.

(** [establish_websocket(host, apikey)] run for [fuel] iterations. *)
Fixpoint iterate (host apikey : string) (fuel : nat) (t : task_state)
  : M registry task_state :=
  match fuel with
  | O => ret t
  | S fuel' => do t' <- step host apikey t; iterate host apikey fuel' t'
  end.

Definition establish_websocket (host apikey : string) (fuel : nat) : M registry task_state :=
  iterate host apikey fuel Disconnected.

End main.

(* ===================================================================== *)
(** ** Vocabulary of the statements                                       *)
(* ===================================================================== *)

Module Spec.
Import feller_client.

(** The world after [n] more HTTP exchanges that left [logs] in the trace. *)
Definition after_requests (w : world) (n : nat) (logs : list event) : world :=
  World (n + n_http w) (n_connect w) (n_recv w) (n_ping w) (trace w ++ logs).

(** The world after [logs] went to the trace and nothing else happened. *)
Definition logged (w : world) (logs : list event) : world := after_requests w 0 logs.

(** The URL that [_send_request_async] builds for an endpoint. *)
Definition url_of (self : FellerApiClient) (endpoint : string) : string :=
  "http://" +:+ _host self +:+ "/api/" +:+ endpoint.

(** The delays of [k] consecutive failed attempts, the first of which has
    loop index [i]. *)
Fixpoint delays (i : Z) (k : nat) : list Z :=
  match k with
  | O => []
  | S k' => (i + 1) :: delays (i + 1) k'
  end.

(** The three ways in which an exchange fails: HTTP status of 400 or more,
    a transport-level failure, a vendor envelope whose status is not
    "success". *)
Inductive failing : http_outcome -> Prop :=
| failing_status status body :
    400 <= status -> failing (HttpResponse status body)
| failing_transport :
    failing (HttpRaises ClientError)
| failing_vendor status kvs st :
    status < 400 -> assoc "status" kvs = Some st -> is_str "success" st = false ->
    failing (HttpResponse status (Ok (VDict kvs))).

(** A response below 400 whose envelope says "success" and carries [data]. *)
Inductive succeeding : http_outcome -> FellerApiResult -> Prop :=
| succeeding_intro status kvs payload :
    status < 400 ->
    assoc "status" kvs = Some (VStr "success") ->
    assoc "data" kvs = Some payload ->
    succeeding (HttpResponse status (Ok (VDict kvs))) (mkResult status payload).


(** The typed operations of [FellerApiClient]. *)
Inductive operation : Type :=
| GetAllLoads
| GetAllHvacGroups
| GetHvacGroup (group_id retry_count : Z)
| GetLoad (load_id retry_count : Z)
| SetHvacGroupTemperature (group_id : Z) (target_temperature : value)
| SetHvacGroupState (group_id : Z) (on : bool)
| SendLoadCtrlEvent (load_id : Z) (body : value)
| SetLightBrightness (light_id : Z) (brightness : value)
| SetCoverLevel (cover_id : Z) (level : value).

Definition perform {St} (self : FellerApiClient) (op : operation) : M St FellerApiResult :=
  match op with
  | GetAllLoads => get_all_loads_async self
  | GetAllHvacGroups => get_all_hvac_groups_async self
  | GetHvacGroup g n => get_hvac_group_async self g n
  | GetLoad l n => get_load_async self l n
  | SetHvacGroupTemperature g t => set_hvac_group_temperature_async self g t
  | SetHvacGroupState g b => set_hvac_group_state_async self g b
  | SendLoadCtrlEvent l b => send_load_ctrl_event_async self l b
  | SetLightBrightness l b => set_light_brightness_async self l b
  | SetCoverLevel c l => set_cover_level_async self c l
  end.

(** The operations that go through [_send_request_with_retry_async]. *)
Definition retried (op : operation) : bool :=
  match op with GetHvacGroup _ _ | GetLoad _ _ => true | _ => false end.

(** The operations that read: the four GETs. *)
Definition reads (op : operation) : bool :=
  match op with
  | GetAllLoads | GetAllHvacGroups | GetHvacGroup _ _ | GetLoad _ _ => true
  | _ => false
  end.

(** [|f - b| <= num / den], on the exact values. *)
Definition within (f : float) (b num den : Z) : bool :=
  match Prim2SF f with
  | S754_zero _ => den * Z.abs b <=? num
  | S754_finite s m e =>
      let sm := if s then - Z.pos m else Z.pos m in
      if e <? 0 then den * Z.abs (sm - b * 2 ^ (- e)) <=? num * 2 ^ (- e)
      else den * Z.abs (sm * 2 ^ e - b) <=? num
  | _ => false
  end.

(** What the code computes from a vendor level of a cover, checked against
    what is expected of it: the division succeeds and is the level over 100
    to the nearest hundredth, the position is at least 100 only for level 0
    and at most 0 only for level 10000. *)
Definition cover_level_checked (level : Z) : bool :=
  match div_int (VInt level) 100 with
  | Ok q =>
      match ge_int (VFloat (100 - q)) 100, le_int (VFloat (100 - q)) 0,
            Py.round (q * 100)%float with
      | Ok o, Ok c, Ok r =>
          Bool.eqb o (level =? 0) && Bool.eqb c (level =? 10000) && (r =? level)
      | _, _, _ => false
      end
  | _ => false
  end.

(** What the code computes from a host brightness, checked: the product
    and its rounding succeed, the vendor value is zero only for brightness
    zero, and the vendor value divided back is within 13/1000 of the
    brightness and rounds to it. *)
Definition brightness_checked (b : Z) : bool :=
  match mul_float (VInt b) 39.22 with
  | Ok x =>
      match Py.round x with
      | Ok r =>
          match div_float (VInt r) 39.22 with
          | Ok back =>
              Bool.eqb (r =? 0) (b =? 0)
              && within back b 13 1000
              && match Py.round back with Ok b' => b' =? b | _ => false end
          | _ => false
          end
      | _ => false
      end
  | _ => false
  end.

(** The push events of the vendor for a load and for an HVAC group. *)
Definition load_event (id : Z) (state : list (string * value)) : value :=
  VDict [("load", VDict [("id", VInt id); ("state", VDict state)])].

Definition hvacgroup_event (id : Z) (state : list (string * value)) : value :=
  VDict [("hvacgroup", VDict [("id", VInt id); ("state", VDict state)])].

(** The value under the kind key of an envelope: [load] if present, else
    [hvacgroup]. *)
Definition kind_value (kvs : list (string * value)) : option value :=
  match assoc "load" kvs with
  | Some v => Some v
  | None => assoc "hvacgroup" kvs
  end.

(** Nothing happened, or one debug line was logged. *)
Definition quiet (w w' : world) : Prop :=
  w' = w \/ exists msg, w' = logged w [Log "debug" msg].

(** The websocket peer fails with ordinary exceptions only: nothing cancels
    the task from outside. *)
Definition civil (env : script) : Prop :=
  (forall n e, connects env n = Raise e -> is_Exception e = true)
  /\ (forall n e, recvs env n = Raise e -> is_Exception e = true).

(** Whatever the result or the computation raises derives from [Exception]. *)
Definition safe {A} (r : result A) : Prop :=
  forall e, r = Raise e -> is_Exception e = true.

Definition benign {St A} (env : script) (c : M St A) : Prop :=
  forall s w s' w' e, c env s w = (s', w', Raise e) -> is_Exception e = true.

(** The task has not ended. *)
Definition alive (t : main.task_state) : Prop :=
  match t with main.Dead _ => False | _ => True end.

(** The name lookup failed or the host refused the connection. *)
Definition dns_or_refused (r : result unit) : Prop :=
  r = Raise gaierror \/ r = Raise ConnectionRefusedError.

(** The connection attempts recorded in a trace. *)
Definition connections (t : list event) : list event :=
  List.filter (fun e => match e with WsConnect _ => true | _ => false end) t.

(** Exchanges that end in [FellerApiException]: the three failures, and a
    body that [response.json()] refuses with an [aiohttp.ClientError]. *)
Definition wrapped (o : http_outcome) : Prop :=
  failing o \/ exists status, status < 400 /\ o = HttpResponse status (Raise ClientError).

(** Exchanges whose exception [_send_request_async] lets through as it is:
    the transport or the decoding raises something that is no
    [aiohttp.ClientError], the body is no object, or it lacks [status], or it
    says "success" and lacks [data]. *)
Inductive escaping : http_outcome -> exc -> Prop :=
| escaping_transport e :
    is_ClientError e = false -> escaping (HttpRaises e) e
| escaping_body status e :
    status < 400 -> is_ClientError e = false ->
    escaping (HttpResponse status (Raise e)) e
| escaping_no_object status v :
    status < 400 -> (forall kvs, v <> VDict kvs) ->
    escaping (HttpResponse status (Ok v)) TypeError
| escaping_no_status status kvs :
    status < 400 -> assoc "status" kvs = None ->
    escaping (HttpResponse status (Ok (VDict kvs))) (KeyError "status")
| escaping_no_data status kvs :
    status < 400 -> assoc "status" kvs = Some (VStr "success") -> assoc "data" kvs = None ->
    escaping (HttpResponse status (Ok (VDict kvs))) (KeyError "data").

(** The [state] object of a load event does not say that the light is
    fading: no [flags], or no [fading] under it, or a [fading] other than 1. *)
Definition not_fading (state : list (string * value)) : Prop :=
  assoc "flags" state = None
  \/ exists flags,
       assoc "flags" state = Some (VDict flags)
       /\ (assoc "fading" flags = None
           \/ exists f, assoc "fading" flags = Some f /\ eq_int f 1 = false).

(** A computation that never changes what [f] reads from the local state,
    whatever its outcome. *)
Definition keeps {St A B} (f : St -> B) (c : M St A) : Prop :=
  forall env s w s' w' r, c env s w = (s', w', r) -> f s' = f s.

(** The kind of a registered handle. *)
Inductive kind : Type := IsLight | IsCover | IsHvacGroup.

Definition kind_of (e : main.entity) : kind :=
  match e with
  | main.Light _ => IsLight
  | main.Cover _ => IsCover
  | main.HvacGroup _ => IsHvacGroup
  end.

(** A host position sent as a vendor level and echoed back: the division
    succeeds and the position computed from the echo equals the one sent. *)
Definition position_checked (p : Z) : bool :=
  match div_int (VInt ((100 - p) * 100)) 100 with
  | Ok q => eq_int (VFloat (100 - q)) p
  | Raise _ => false
  end.

(** Exactly one of three flags is set. *)
Definition exactly_one (a b c : bool) : Prop :=
  (a = true /\ b = false /\ c = false)
  \/ (a = false /\ b = true /\ c = false)
  \/ (a = false /\ b = false /\ c = true).

End Spec.

(* ===================================================================== *)
(** ** Concrete situations                                                *)
(* ===================================================================== *)

Module Scenario.
Import feller_client.

Definition client : FellerApiClient := mkClient "wiser.local" "secret" 10.

Definition envelope (payload : value) : value :=
  VDict [("status", VStr "success"); ("data", payload)].

Definition load_state : value :=
  VDict [("id", VInt 7); ("state", VDict [("bri", VInt 980)])].

Definition silent_ws : nat -> result unit := fun _ => Ok tt.
Definition no_frames : nat -> result frame := fun _ => Raise ConnectionClosed.

(** HTTP scripts. *)
Definition always_500 : nat -> http_outcome :=
  fun _ => HttpResponse 500 (Raise ClientError).

Definition fail_times (k : nat) (payload : value) : nat -> http_outcome :=
  fun n => if (n <? k)%nat then HttpResponse 503 (Ok VNone)
           else HttpResponse 200 (Ok (envelope payload)).

(** Scripts in which only the HTTP peer matters. *)
Definition http_only (h : nat -> http_outcome) : script :=
  Script h silent_ws no_frames silent_ws.

(** Host constants as Home Assistant defines them. *)
Definition ATTR_BRIGHTNESS : string := "brightness".
Definition ATTR_POSITION : string := "position".

(** Devices as [__init__] leaves them. *)
Definition cover7 : cover.FellerCover := cover.init VNone "Blind" 7 client.
Definition light42 : light.FellerLight := light.init "Lamp" 42 "dim" client.
Definition group3 : climate.FellerHvacGroup := climate.init "Zone" 3 (VList [VInt 42]) client.

(** A cover that stands half open, and an HVAC group that is heating. *)
Definition cover7_half : cover.FellerCover :=
  cover.mkCover (Some true) VNone "Blind" "7" 7 false false false false true (VFloat 50) client.

Definition group3_heating : climate.FellerHvacGroup :=
  climate.mkGroup "Zone" "3" 3 (VList [VInt 42]) client
    (VFloat 20.5) (VFloat 22) (Some climate.HEAT) (Some climate.HEATING) (VInt 10) (VInt 30).

(** Registries. *)
Definition home : main.registry :=
  [main.Light light42; main.Cover cover7; main.HvacGroup group3].

(** Websocket peers: one whose connection is gone (every receive and every
    ping says so), one that is reachable but silent (receives time out, pings
    are answered), one that cannot be resolved, one that sends the cover
    event of the specification and then goes away. *)
Definition gone : script :=
  Script always_500 silent_ws no_frames (fun _ => Raise ConnectionClosed).

Definition idle : script :=
  Script always_500 silent_ws (fun _ => Raise TimeoutError) silent_ws.

Definition unresolvable : script :=
  Script always_500 (fun _ => Raise gaierror) no_frames silent_ws.

Definition cover_event : value :=
  Spec.load_event 7 [("level", VInt 2500); ("moving", VStr "down")].

Definition talking : script :=
  Script always_500 silent_ws
    (fun n => match n with O => Ok (Json cover_event) | _ => Raise ConnectionClosed end)
    (fun _ => Raise ConnectionClosed).

(** HTTP scripts that answer 200 with an envelope that is not the vendor's,
    and one that times out. *)
Definition no_status : nat -> http_outcome :=
  fun _ => HttpResponse 200 (Ok (VDict [("data", VDict [])])).

Definition timing_out : nat -> http_outcome :=
  fun _ => HttpRaises TimeoutError.

(** An HTTP script that answers every request with the given payload. *)
Definition answering (payload : value) : nat -> http_outcome := fail_times 0 payload.

End Scenario.

(* ===================================================================== *)
(** ** Properties of the API client                                       *)
(* ===================================================================== *)

Module ClientFacts.
Import feller_client Spec.

Section WithState.
Context {St : Type}.
Variable self : FellerApiClient.

Ltac trace_norm := rewrite <- ?app_assoc; simpl.
Ltac unfold_m :=
  cbv [bind lift ret raise try_except log sleep emit next_http get put modify
       handle_response].

(** One call of [_send_request_async] is one exchange: it advances the HTTP
    script by one, sleeps never, touches no local state. *)
Lemma send_request_shape endpoint method data env (s : St) w :
  exists logs r,
    _send_request_async self endpoint method data env s w = (s, after_requests w 1 logs, r)
    /\ sleeps logs = []
    /\ requests logs = [HttpRequest method (url_of self endpoint) data].
Proof.
  unfold _send_request_async, after_requests, url_of; unfold_m; simpl.
  destruct (http env (n_http w)) as [status body | e]; simpl.
  - destruct (400 <=? status); simpl.
    + eexists _, _; trace_norm; repeat split; reflexivity.
    + destruct body as [d | e]; simpl.
      * destruct (getitem d "status") as [st | e]; simpl.
        -- destruct (is_str "success" st); simpl.
           ++ destruct (getitem d "data") as [pl | e]; simpl.
              ** eexists _, _; trace_norm; repeat split; reflexivity.
              ** destruct (is_ClientError e); eexists _, _; trace_norm; repeat split; reflexivity.
           ++ eexists _, _; trace_norm; repeat split; reflexivity.
        -- destruct (is_ClientError e); eexists _, _; trace_norm; repeat split; reflexivity.
      * destruct (is_ClientError e); eexists _, _; trace_norm; repeat split; reflexivity.
  - destruct (is_ClientError e); eexists _, _; trace_norm; repeat split; reflexivity.
Qed.

Lemma send_request_failing endpoint method data env (s : St) w :
  failing (http env (n_http w)) ->
  exists logs,
    _send_request_async self endpoint method data env s w
      = (s, after_requests w 1 logs, Raise FellerApiException)
    /\ sleeps logs = []
    /\ length (requests logs) = 1%nat.
Proof.
  intros F.
  unfold _send_request_async, after_requests; unfold_m; simpl.
  inversion F as [status body Hs Ho | Ho | status kvs st Hs Hst Hne Ho]; simpl.
  - apply Z.leb_le in Hs; rewrite Hs; simpl.
    eexists; trace_norm; repeat split; reflexivity.
  - eexists; trace_norm; repeat split; reflexivity.
  - assert ((400 <=? status) = false) as -> by (apply Z.leb_gt; lia); simpl.
    rewrite Hst; simpl. rewrite Hne; simpl.
    eexists; trace_norm; repeat split; reflexivity.
Qed.

Lemma send_request_succeeding endpoint method data env (s : St) w res :
  succeeding (http env (n_http w)) res ->
  exists logs,
    _send_request_async self endpoint method data env s w
      = (s, after_requests w 1 logs, Ok res)
    /\ sleeps logs = []
    /\ length (requests logs) = 1%nat.
Proof.
  intros F.
  unfold _send_request_async, after_requests; unfold_m; simpl.
  inversion F as [status kvs payload Hs Hst Hd Ho Hr]; simpl.
  assert ((400 <=? status) = false) as -> by (apply Z.leb_gt; lia); simpl.
  rewrite Hst; simpl. rewrite Hd; simpl.
  eexists; trace_norm; repeat split; reflexivity.
Qed.

Lemma sleeps_app a b : sleeps (a ++ b) = sleeps a ++ sleeps b.
Proof. unfold sleeps. induction a as [| x a IH]; simpl; [reflexivity |]. now rewrite IH, app_assoc. Qed.

Lemma requests_app a b : requests (a ++ b) = requests a ++ requests b.
Proof. unfold requests. apply List.filter_app. Qed.

Lemma sleep_after_requests env (s : St) w n logs z :
  sleep z env s (after_requests w n logs) = (s, after_requests w n (logs ++ [Sleep z]), Ok tt).
Proof. unfold sleep, emit, after_requests; simpl. now rewrite app_assoc. Qed.

Lemma after_requests_twice w n m a b :
  after_requests (after_requests w n a) m b = after_requests w (n + m) (a ++ b).
Proof. unfold after_requests; simpl. f_equal; [lia | now rewrite app_assoc]. Qed.

(** [k] failures, then a success, with attempts to spare: the result of the
    success comes back after the delays of the [k] failures. *)
Lemma retry_loop_success k : forall left i endpoint method data env (s : St) w res,
  (k < left)%nat ->
  (forall j, (j < k)%nat -> failing (http env (n_http w + j))) ->
  succeeding (http env (n_http w + k)) res ->
  exists logs,
    retry_loop self left i endpoint method data env s w
      = (s, after_requests w (S k) logs, Ok res)
    /\ sleeps logs = delays i k
    /\ length (requests logs) = S k.
Proof.
  induction k as [| k IH]; intros left i endpoint method data env s w res Hlt Hfail Hok.
  - destruct left as [| left]; [lia |]. simpl.
    rewrite Nat.add_0_r in Hok.
    destruct (send_request_succeeding endpoint method data env s w res Hok) as (logs & E & Hs & Hr).
    exists logs. unfold try_except. rewrite E. auto.
  - destruct left as [| left]; [lia |]. simpl.
    assert (F0 : failing (http env (n_http w))).
    { specialize (Hfail O ltac:(lia)). now rewrite Nat.add_0_r in Hfail. }
    destruct (send_request_failing endpoint method data env s w F0) as (logs & E & Hs & Hr).
    unfold try_except at 1. rewrite E. simpl.
    unfold bind at 1. rewrite sleep_after_requests.
    set (w1 := after_requests w 1 (logs ++ [Sleep (i + 1)])).
    destruct (IH left (i + 1) endpoint method data env s w1 res) as (logs' & E' & Hs' & Hr').
    + lia.
    + intros j Hj. simpl. replace (S (n_http w + j)) with (n_http w + S j)%nat by lia.
      apply Hfail. lia.
    + simpl. now replace (S (n_http w + k)) with (n_http w + S k)%nat by lia.
    + exists ((logs ++ [Sleep (i + 1)]) ++ logs'). rewrite E'. unfold w1.
      rewrite after_requests_twice. repeat split.
      * rewrite !sleeps_app, Hs, Hs'. reflexivity.
      * rewrite !requests_app, !length_app, Hr, Hr'. simpl. lia.
Qed.

(** Every attempt fails: the loop runs dry and the final [raise] is reached. *)
Lemma retry_loop_exhausted left : forall i endpoint method data env (s : St) w,
  (forall j, (j < left)%nat -> failing (http env (n_http w + j))) ->
  exists logs,
    retry_loop self left i endpoint method data env s w
      = (s, after_requests w left logs, Raise FellerApiException)
    /\ sleeps logs = delays i left
    /\ length (requests logs) = left.
Proof.
  induction left as [| left IH]; intros i endpoint method data env s w Hfail.
  - exists []. simpl. unfold raise, after_requests. rewrite app_nil_r.
    destruct w; auto.
  - simpl.
    assert (F0 : failing (http env (n_http w))).
    { specialize (Hfail O ltac:(lia)). now rewrite Nat.add_0_r in Hfail. }
    destruct (send_request_failing endpoint method data env s w F0) as (logs & E & Hs & Hr).
    unfold try_except at 1. rewrite E. simpl.
    unfold bind at 1. rewrite sleep_after_requests.
    set (w1 := after_requests w 1 (logs ++ [Sleep (i + 1)])).
    destruct (IH (i + 1) endpoint method data env s w1) as (logs' & E' & Hs' & Hr').
    + intros j Hj. simpl. replace (S (n_http w + j)) with (n_http w + S j)%nat by lia.
      apply Hfail. lia.
    + exists ((logs ++ [Sleep (i + 1)]) ++ logs'). rewrite E'. unfold w1.
      rewrite after_requests_twice. repeat split.
      * rewrite !sleeps_app, Hs, Hs'. reflexivity.
      * rewrite !requests_app, !length_app, Hr, Hr'. simpl. lia.
Qed.





(** C5. With a retry count of 5: four failures followed by a success return
    the success after sleeping 1, 2, 3 and 4 seconds, 1+2+3+4 in total; five
    failures end in [FellerApiException] after five attempts. *)
Theorem C5_retry_count_five endpoint method data env (s : St) w :
  (forall res,
      (forall j, (j < 4)%nat -> failing (http env (n_http w + j))) ->
      succeeding (http env (n_http w + 4)) res ->
      exists logs,
        _send_request_with_retry_async self endpoint 5 method data env s w
          = (s, after_requests w 5 logs, Ok res)
        /\ sleeps logs = [1; 2; 3; 4]
        /\ fold_right Z.add 0 (sleeps logs) = 1 + 2 + 3 + 4
        /\ length (requests logs) = 5%nat)
  /\ ((forall j, (j < 5)%nat -> failing (http env (n_http w + j))) ->
      exists logs,
        _send_request_with_retry_async self endpoint 5 method data env s w
          = (s, after_requests w 5 logs, Raise FellerApiException)
        /\ length (requests logs) = 5%nat).
Proof.
  unfold _send_request_with_retry_async.
  change (Z.to_nat 5) with 5%nat. split.
  - intros res Hfail Hok.
    destruct (retry_loop_success 4 5 0 endpoint method data env s w res ltac:(lia) Hfail Hok)
      as (logs & E & Hs & Hr).
    exists logs. rewrite Hs. auto.
  - intros Hfail.
    destruct (retry_loop_exhausted 5 0 endpoint method data env s w Hfail)
      as (logs & E & Hs & Hr).
    exists logs. auto.
Qed.

(** C6, as the code has it. The operations that do not go through
    [_send_request_with_retry_async], which are the two list reads and the
    five writes, make one attempt, never sleep and raise at once when the
    exchange fails. The two single-item reads try again after a failure, at
    most [retry_count] times in all. *)
Theorem C6_retry_only_for_single_item_reads (op : operation) env (s : St) w :
  (retried op = false ->
     exists logs r,
       perform self op env s w = (s, after_requests w 1 logs, r)
       /\ sleeps logs = []
       /\ length (requests logs) = 1%nat
       /\ (failing (http env (n_http w)) -> r = Raise FellerApiException))
  /\ (forall id n,
        op = GetLoad id n \/ op = GetHvacGroup id n ->
        (forall k res,
            (k < Z.to_nat n)%nat ->
            (forall j, (j < k)%nat -> failing (http env (n_http w + j))) ->
            succeeding (http env (n_http w + k)) res ->
            exists logs,
              perform self op env s w = (s, after_requests w (S k) logs, Ok res)
              /\ sleeps logs = delays 0 k
              /\ length (requests logs) = S k)
        /\ ((forall j, (j < Z.to_nat n)%nat -> failing (http env (n_http w + j))) ->
            exists logs,
              perform self op env s w
                = (s, after_requests w (Z.to_nat n) logs, Raise FellerApiException)
              /\ length (requests logs) = Z.to_nat n)).
Proof.
  split.
  - intros NR.
    assert (exists endpoint method data,
               perform self op (St := St) = _send_request_async self endpoint method data)
      as (endpoint & method & data & ->).
    { destruct op; try discriminate NR; simpl; eexists _, _, _; reflexivity. }
    destruct (send_request_shape endpoint method data env s w) as (logs & r & E & Hs & Hr).
    exists logs, r.
    split; [exact E | split; [exact Hs | split; [now rewrite Hr |]]].
    intros F. destruct (send_request_failing endpoint method data env s w F) as (logs' & E' & _).
    rewrite E in E'. now injection E' as _ ->.
  - intros id n Hop.
    assert (exists endpoint,
               perform self op (St := St) = retry_loop self (Z.to_nat n) 0 endpoint "GET" VNone)
      as (endpoint & ->).
    { destruct Hop as [-> | ->]; simpl; eexists; reflexivity. }
    split.
    + intros k res Hk Hfail Hok. now apply retry_loop_success.
    + intros Hfail.
      destruct (retry_loop_exhausted (Z.to_nat n) 0 endpoint "GET" VNone env s w Hfail)
        as (logs & E & _ & Hr).
      now exists logs.
Qed.

End WithState.

Import Scenario.

Lemma fail_times_failing k payload j : (j < k)%nat -> failing (fail_times k payload j).
Proof.
  intros H. unfold fail_times.
  destruct (Nat.ltb_spec j k) as [_ | Hge]; [| lia].
  apply failing_status. lia.
Defined.

Lemma fail_times_succeeding k payload :
  succeeding (fail_times k payload k) (mkResult 200 payload).
Proof.
  unfold fail_times. rewrite Nat.ltb_irrefl.
  apply succeeding_intro; [lia | reflexivity | reflexivity].
Defined.



(** C5 at work: four 503 responses and then the state of load 7; and 503
    for ever. *)
Lemma C5_witness :
  (exists logs,
      _send_request_with_retry_async client "loads/7" 5 "GET" VNone
        (http_only (fail_times 4 load_state)) tt initial
        = (tt, after_requests initial 5 logs, Ok (mkResult 200 load_state))
      /\ sleeps logs = [1; 2; 3; 4]
      /\ fold_right Z.add 0 (sleeps logs) = 1 + 2 + 3 + 4
      /\ length (requests logs) = 5%nat)
  /\ (exists logs,
      _send_request_with_retry_async client "loads/7" 5 "GET" VNone
        (http_only (fail_times 5 load_state)) tt initial
        = (tt, after_requests initial 5 logs, Raise FellerApiException)
      /\ length (requests logs) = 5%nat).
Proof.
  split.
  - apply (proj1 (C5_retry_count_five client "loads/7" "GET" VNone
                    (http_only (fail_times 4 load_state)) tt initial)).
    + intros j Hj. simpl. now apply fail_times_failing.
    + apply fail_times_succeeding.
  - apply (proj2 (C5_retry_count_five client "loads/7" "GET" VNone
                    (http_only (fail_times 5 load_state)) tt initial)).
    intros j Hj. simpl. now apply fail_times_failing.
Defined.

(** C6 as stated fails on the list reads: the first answer is a 503, the
    second would have been a success, and [get_all_loads_async] gives up
    after the first without sleeping, where [get_load_async] goes on. *)
Lemma C6_list_reads_are_not_retried :
  reads GetAllLoads = true
  /\ succeeding (http (http_only (fail_times 1 (VList []))) 1) (mkResult 200 (VList []))
  /\ (exists logs,
        get_all_loads_async client (http_only (fail_times 1 (VList []))) tt initial
          = (tt, after_requests initial 1 logs, Raise FellerApiException)
        /\ sleeps logs = []
        /\ length (requests logs) = 1%nat)
  /\ (exists logs,
        get_load_async client 7 5 (http_only (fail_times 1 (VList []))) tt initial
          = (tt, after_requests initial 2 logs, Ok (mkResult 200 (VList [])))
        /\ sleeps logs = [1]
        /\ length (requests logs) = 2%nat).
Proof.
  split; [reflexivity |]. split; [apply (fail_times_succeeding 1) |].
  split; eexists; (split; [reflexivity | split; reflexivity]).
Qed.

(** C6 as the code has it, at work: a write that meets a 503 and a
    single-item read that meets one 503. *)
Lemma C6_witness :
  (exists logs r,
      perform client (SetCoverLevel 7 (VInt 10000)) (http_only always_500) tt initial
        = (tt, after_requests initial 1 logs, r)
      /\ sleeps logs = []
      /\ length (requests logs) = 1%nat
      /\ (failing (http (http_only always_500) (n_http initial)) ->
          r = Raise FellerApiException))
  /\ (exists logs,
      perform client (GetLoad 7 5) (http_only (fail_times 1 load_state)) tt initial
        = (tt, after_requests initial 2 logs, Ok (mkResult 200 load_state))
      /\ sleeps logs = delays 0 1
      /\ length (requests logs) = 2%nat).
Proof.
  split.
  - exact (proj1 (C6_retry_only_for_single_item_reads client (SetCoverLevel 7 (VInt 10000))
                    (http_only always_500) tt initial) eq_refl).
  - apply (proj1 (proj2 (C6_retry_only_for_single_item_reads client (GetLoad 7 5)
                    (http_only (fail_times 1 load_state)) tt initial) 7 5 (or_introl eq_refl))
                 1%nat (mkResult 200 load_state)).
    + simpl. lia.
    + intros j Hj. simpl. now apply fail_times_failing.
    + apply (fail_times_succeeding 1).
Defined.

End ClientFacts.

(* ===================================================================== *)
(** ** Properties of the device handles                                   *)
(* ===================================================================== *)

Module CoverFacts.
Import feller_client cover Spec.

Ltac unfold_m :=
  cbv [bind lift ret raise try_except log sleep emit get put modify contains getitem].

Lemma int_to_float_100 : int_to_float 100 = Ok 100%float.
Proof. vm_compute. reflexivity. Qed.

Lemma int_sub_100 q : int_sub 100 (VFloat q) = Ok (VFloat (100 - q)).
Proof. unfold int_sub. now rewrite int_to_float_100. Qed.

Lemma cover_levels_checked :
  forallb cover_level_checked (map Z.of_nat (seq 0 (Z.to_nat 10001))) = true.
Proof. vm_compute. reflexivity. Qed.

Lemma cover_level_facts level :
  0 <= level <= 10000 ->
  exists q,
    div_int (VInt level) 100 = Ok q
    /\ ge_int (VFloat (100 - q)) 100 = Ok (level =? 0)
    /\ le_int (VFloat (100 - q)) 0 = Ok (level =? 10000)
    /\ Py.round (q * 100)%float = Ok level.
Proof.
  intros Hl.
  assert (H : cover_level_checked level = true).
  { pose proof cover_levels_checked as C. rewrite forallb_forall in C. apply C.
    apply in_map_iff. exists (Z.to_nat level). split; [lia |]. apply in_seq. lia. }
  unfold cover_level_checked in H.
  destruct (div_int (VInt level) 100) as [q |] eqn:Eq; [| discriminate].
  exists q.
  destruct (ge_int (VFloat (100 - q)) 100) as [o |] eqn:Eo; [| discriminate].
  destruct (le_int (VFloat (100 - q)) 0) as [c |] eqn:Ec; [| discriminate].
  destruct (Py.round (q * 100)) as [r |] eqn:Er; [| discriminate].
  apply andb_prop in H as [H Hr]. apply andb_prop in H as [Ho Hc].
  apply Bool.eqb_prop in Ho, Hc. apply Z.eqb_eq in Hr. subst. auto.
Qed.

(** C8. A cover push event with a level between 0 and 10000 and a direction
    among up, down and stop sets the position to 100 - level/100 (100 for
    level 0, 0 for level 10000), is-opening for up and is-closing for down,
    and the open, closed and partial flags by the thresholds 100 and 0 on the
    position. *)
Theorem C8_cover_push_event (c : FellerCover) env w kvs load_kvs state_kvs level moving :
  assoc "load" kvs = Some (VDict load_kvs) ->
  assoc "state" load_kvs = Some (VDict state_kvs) ->
  assoc "level" state_kvs = Some (VInt level) ->
  assoc "moving" state_kvs = Some (VStr moving) ->
  0 <= level <= 10000 ->
  In moving ["up"; "down"; "stop"] ->
  exists q c',
    update_from_websocket_message (VDict kvs) env c w
      = (c', logged w [ScheduleUpdate (_id c)], Ok tt)
    /\ int_truediv level 100 = Ok q
    /\ Py.round (q * 100)%float = Ok level
    /\ _position c' = VFloat (100 - q)
    /\ (level = 0 -> _position c' = VFloat 100)
    /\ (level = 10000 -> _position c' = VFloat 0)
    /\ _is_opening c' = String.eqb moving "up"
    /\ _is_closing c' = String.eqb moving "down"
    /\ ge_int (_position c') 100 = Ok (_is_opened c')
    /\ le_int (_position c') 0 = Ok (_is_closed c')
    /\ _is_partially_opened c' = negb (_is_opened c') && negb (_is_closed c')
    /\ _is_opened c' = (level =? 0)
    /\ _is_closed c' = (level =? 10000).
Proof.
  intros Hload Hstate Hlevel Hmoving Hrange Hdir.
  destruct (cover_level_facts level Hrange) as (q & Hq & Hge & Hle & Hround).
  exists q.
  unfold update_from_websocket_message, store_position. unfold_m.
  rewrite Hload, Hstate. cbv iota beta. rewrite Hlevel, Hmoving. cbv iota beta.
  rewrite Hq, int_sub_100. cbv iota beta.
  assert (H0 : level = 0 -> VFloat (100 - q) = VFloat 100).
  { intros ->. vm_compute in Hq. injection Hq as <-. reflexivity. }
  assert (H1 : level = 10000 -> VFloat (100 - q) = VFloat 0).
  { intros ->. vm_compute in Hq. injection Hq as <-. reflexivity. }
  assert (Hexcl : (level =? 0) && (level =? 10000) = false).
  { destruct (Z.eqb_spec level 0); [subst; reflexivity | reflexivity]. }
  simpl in Hdir.
  destruct Hdir as [<- | [<- | [<- | []]]];
    cbn -[ge_int le_int div_int int_truediv Py.round PrimFloat.sub]; rewrite Hge;
    destruct (level =? 0) eqn:E0;
    cbn -[ge_int le_int div_int int_truediv Py.round PrimFloat.sub]; rewrite ?Hle;
    destruct (level =? 10000) eqn:E1; try discriminate Hexcl;
    (eexists; split; [reflexivity |];
     cbn -[ge_int le_int div_int int_truediv Py.round PrimFloat.sub];
     rewrite ?Hge, ?Hle, ?E0, ?E1;
     apply Z.eqb_eq in E0 || apply Z.eqb_neq in E0;
     apply Z.eqb_eq in E1 || apply Z.eqb_neq in E1;
     repeat split; auto; intros; lia).
Qed.

(** C8 at work: level 2500 moving down on cover 7 gives position 75,
    closing, not opening, partially opened. *)
Lemma C8_witness :
  exists c',
    update_from_websocket_message
      (load_event 7 [("level", VInt 2500); ("moving", VStr "down")])
      (Scenario.http_only Scenario.always_500) Scenario.cover7 initial
      = (c', logged initial [ScheduleUpdate "7"], Ok tt)
    /\ _position c' = VFloat 75
    /\ _is_closing c' = true
    /\ _is_opening c' = false
    /\ _is_partially_opened c' = true
    /\ _is_opened c' = false
    /\ _is_closed c' = false.
Proof.
  destruct (C8_cover_push_event Scenario.cover7
              (Scenario.http_only Scenario.always_500) initial
              [("load", VDict [("id", VInt 7);
                               ("state", VDict [("level", VInt 2500); ("moving", VStr "down")])])]
              [("id", VInt 7);
               ("state", VDict [("level", VInt 2500); ("moving", VStr "down")])]
              [("level", VInt 2500); ("moving", VStr "down")]
              2500 "down"
              eq_refl eq_refl eq_refl eq_refl
              (conj (proj1 (Z.leb_le 0 2500) eq_refl) (proj1 (Z.leb_le 2500 10000) eq_refl))
              (or_intror (or_introl eq_refl)))
    as (q & c' & E & Hq & _ & Hp & _ & _ & Ho & Hc & _ & _ & Hpart & Hopen & Hclosed).
  exists c'. split; [exact E |].
  vm_compute in Hq. injection Hq as <-.
  rewrite Hpart, Hopen, Hclosed, Ho, Hc, Hp.
  repeat split; reflexivity.
Defined.

End CoverFacts.

Module LightFacts.
Import feller_client light Spec.

Lemma brightness_all_checked :
  forallb brightness_checked (map Z.of_nat (seq 0 (Z.to_nat 256))) = true.
Proof. vm_compute. reflexivity. Qed.

Lemma brightness_facts b :
  0 <= b <= 255 ->
  exists x r back,
    mul_float (VInt b) 39.22 = Ok x
    /\ Py.round x = Ok r
    /\ div_float (VInt r) 39.22 = Ok back
    /\ (r =? 0) = (b =? 0)
    /\ within back b 13 1000 = true
    /\ Py.round back = Ok b.
Proof.
  intros Hb.
  assert (H : brightness_checked b = true).
  { pose proof brightness_all_checked as C. rewrite forallb_forall in C. apply C.
    apply in_map_iff. exists (Z.to_nat b). split; [lia |]. apply in_seq. lia. }
  unfold brightness_checked in H.
  destruct (mul_float (VInt b) 39.22) as [x |] eqn:Ex; [| discriminate].
  destruct (Py.round x) as [r |] eqn:Er; [| discriminate].
  destruct (div_float (VInt r) 39.22) as [back |] eqn:Eback; [| discriminate].
  exists x, r, back.
  apply andb_prop in H as [H Hround]. apply andb_prop in H as [Hz Hw].
  apply Bool.eqb_prop in Hz.
  destruct (Py.round back) as [b' |] eqn:Eb; [| discriminate].
  apply Z.eqb_eq in Hround. subst b'. repeat split; trivial.
Qed.


Section Brightness.
Variable ATTR_BRIGHTNESS : string.

(** Turning on with a brightness issues one PUT of the rounded and capped
    vendor value; when that request fails, the exception leaves the
    brightness written before the request in place. *)
Lemma async_turn_on_request kwargs b env (l : FellerLight) w x r :
  assoc ATTR_BRIGHTNESS kwargs = Some (VInt b) ->
  mul_float (VInt b) 39.22 = Ok x ->
  Py.round x = Ok r ->
  exists logs l' res,
    async_turn_on ATTR_BRIGHTNESS kwargs env l w = (l', after_requests w 1 logs, res)
    /\ requests logs =
         [HttpRequest "PUT"
            (url_of (_client l) ("loads/" +:+ str_of_int (_wiser_id l) +:+ "/target_state"))
            (VDict [("bri", VInt (Z.min r 10000))])]
    /\ sleeps logs = []
    /\ (failing (http env (n_http w)) ->
        res = Raise FellerApiException /\ l' = set_brightness (VInt b) l).
Proof.
  intros Hk Hx Hr.
  assert (Hne : truthy (VDict kwargs) = true).
  { destruct kwargs; [discriminate Hk | reflexivity]. }
  assert (Hmin : (if 10000 <? r then 10000 else r) = Z.min r 10000).
  { destruct (Z.ltb_spec 10000 r); lia. }
  unfold async_turn_on.
  unfold bind at 1, get at 1. rewrite Hne. cbn [negb].
  unfold dict_get. rewrite Hk.
  unfold bind at 1, modify at 1. unfold bind at 1, get at 1.
  cbn [_brightness _client _wiser_id set_brightness].
  unfold bind at 1, lift at 1. rewrite Hx.
  unfold bind at 1, lift at 1. rewrite Hr, Hmin.
  unfold set_light_brightness_async.
  set (endpoint := "loads/" +:+ str_of_int (_wiser_id l) +:+ "/target_state").
  set (body := VDict [("bri", VInt (Z.min r 10000))]).
  set (l0 := set_brightness (VInt b) l).
  destruct (ClientFacts.send_request_shape (_client l) endpoint "PUT" body env l0 w)
    as (logs & r0 & E & Hs & Hq).
  exists logs. unfold bind at 1. rewrite E.
  destruct r0 as [res | e].
  - assert (NF : ~ failing (http env (n_http w))).
    { intros F.
      destruct (ClientFacts.send_request_failing (_client l) endpoint "PUT" body env l0 w F)
        as (logs' & E' & _).
      rewrite E in E'. discriminate E'. }
    unfold bind, modify, lift.
    destruct (getitem (data res) "target_state") as [ts |];
      [destruct (getitem ts "bri") as [bri |];
       [destruct (div_float bri 39.22) |] |];
      eexists _, _; (split; [reflexivity | split; [exact Hq | split; [exact Hs |]]]);
      intros F; contradiction.
  - eexists _, _. split; [reflexivity | split; [exact Hq | split; [exact Hs |]]].
    intros F.
    destruct (ClientFacts.send_request_failing (_client l) endpoint "PUT" body env l0 w F)
      as (logs' & E' & _).
    rewrite E in E'. injection E' as _ ->. now split.
Qed.

(** A push event that reports a vendor brightness [r] and no fading. *)
Lemma push_brightness id r back env (l : FellerLight) w :
  div_float (VInt r) 39.22 = Ok back ->
  exists l',
    update_from_websocket_message (load_event id [("bri", VInt r)]) env l w
      = (l', logged w [ScheduleUpdate (_id l)], Ok tt)
    /\ as_float (_brightness l') = Ok back
    /\ _is_on l' = Some (negb (r =? 0)).
Proof.
  intros Hback.
  unfold update_from_websocket_message, load_event, is_fading.
  cbn -[div_float as_float].
  destruct (r =? 0) eqn:E.
  - apply Z.eqb_eq in E. subst r.
    eexists. split; [reflexivity |]. cbn -[div_float as_float].
    split; [| reflexivity]. rewrite <- Hback. vm_compute. reflexivity.
  - cbn -[div_float as_float]. rewrite Hback.
    eexists. split; [reflexivity |]. now cbn.
Qed.

(** C9. For a host brightness [b] from 0 to 255 the turn-on command sends
    round(b * 39.22), capped at 10000; a push event that reports
    round(b * 39.22) stores that value divided by 39.22, which lies within
    13/1000 of [b] and rounds to [b]. *)
Theorem C9_brightness_round_trip kwargs b env (l : FellerLight) w :
  0 <= b <= 255 ->
  assoc ATTR_BRIGHTNESS kwargs = Some (VInt b) ->
  exists x r back,
    mul_float (VInt b) 39.22 = Ok x
    /\ Py.round x = Ok r
    /\ (exists logs l' res,
          async_turn_on ATTR_BRIGHTNESS kwargs env l w = (l', after_requests w 1 logs, res)
          /\ requests logs =
               [HttpRequest "PUT"
                  (url_of (_client l)
                     ("loads/" +:+ str_of_int (_wiser_id l) +:+ "/target_state"))
                  (VDict [("bri", VInt (Z.min r 10000))])])
    /\ div_float (VInt r) 39.22 = Ok back
    /\ (forall id env0 (l0 : FellerLight) w0,
          exists l1,
            update_from_websocket_message (load_event id [("bri", VInt r)]) env0 l0 w0
              = (l1, logged w0 [ScheduleUpdate (_id l0)], Ok tt)
            /\ as_float (_brightness l1) = Ok back)
    /\ within back b 13 1000 = true
    /\ Py.round back = Ok b.
Proof.
  intros Hb Hk.
  destruct (brightness_facts b Hb) as (x & r & back & Hx & Hr & Hback & _ & Hw & Hround).
  exists x, r, back.
  split; [exact Hx | split; [exact Hr | split; [| split; [exact Hback | split]]]].
  - destruct (async_turn_on_request kwargs b env l w x r Hk Hx Hr)
      as (logs & l' & res & E & Hq & _).
    now exists logs, l', res.
  - intros id env0 l0 w0.
    destruct (push_brightness id r back env0 l0 w0 Hback) as (l1 & E & Hf & _).
    now exists l1.
  - now split.
Qed.

End Brightness.

(** C9 at work: brightness 100 is sent as 3922 and read back as 100 to
    within 13/1000. *)
Lemma C9_witness :
  exists back,
    (exists logs l' res,
        async_turn_on Scenario.ATTR_BRIGHTNESS [(Scenario.ATTR_BRIGHTNESS, VInt 100)]
          (Scenario.http_only Scenario.always_500) Scenario.light42 initial
          = (l', after_requests initial 1 logs, res)
        /\ requests logs =
             [HttpRequest "PUT" "http://wiser.local/api/loads/42/target_state"
                (VDict [("bri", VInt 3922)])])
    /\ div_float (VInt 3922) 39.22 = Ok back
    /\ within back 100 13 1000 = true
    /\ Py.round back = Ok 100.
Proof.
  destruct (C9_brightness_round_trip Scenario.ATTR_BRIGHTNESS
              [(Scenario.ATTR_BRIGHTNESS, VInt 100)] 100
              (Scenario.http_only Scenario.always_500) Scenario.light42 initial
              (conj (proj1 (Z.leb_le 0 100) eq_refl) (proj1 (Z.leb_le 100 255) eq_refl))
              eq_refl)
    as (x & r & back & Hx & Hr & Hreq & Hback & _ & Hw & Hround).
  vm_compute in Hx. injection Hx as <-.
  vm_compute in Hr. injection Hr as <-.
  exists back. split; [exact Hreq | split; [exact Hback | split; [exact Hw | exact Hround]]].
Defined.

End LightFacts.

Module HandleFacts.
Import feller_client Spec Scenario.

(** Envelopes without the kind key, or without [state] under it, are logged
    and change nothing, for each of the three kinds. *)
Lemma light_ignores_incomplete kvs env (l : light.FellerLight) w :
  assoc "load" kvs = None
  \/ (exists load_kvs, assoc "load" kvs = Some (VDict load_kvs) /\ assoc "state" load_kvs = None) ->
  exists msg,
    light.update_from_websocket_message (VDict kvs) env l w = (l, logged w [Log "debug" msg], Ok tt).
Proof.
  unfold light.update_from_websocket_message.
  intros [H | (load_kvs & H & H')]; cbn; rewrite H; cbn; [| rewrite H'; cbn];
    eexists; reflexivity.
Qed.

Lemma cover_ignores_incomplete kvs env (c : cover.FellerCover) w :
  assoc "load" kvs = None
  \/ (exists load_kvs, assoc "load" kvs = Some (VDict load_kvs) /\ assoc "state" load_kvs = None) ->
  exists msg,
    cover.update_from_websocket_message (VDict kvs) env c w = (c, logged w [Log "debug" msg], Ok tt).
Proof.
  unfold cover.update_from_websocket_message.
  intros [H | (load_kvs & H & H')]; cbn; rewrite H; cbn; [| rewrite H'; cbn];
    eexists; reflexivity.
Qed.

Lemma hvacgroup_ignores_incomplete kvs env (g : climate.FellerHvacGroup) w :
  assoc "hvacgroup" kvs = None
  \/ (exists group_kvs,
        assoc "hvacgroup" kvs = Some (VDict group_kvs) /\ assoc "state" group_kvs = None) ->
  exists msg,
    climate.update_from_websocket_message (VDict kvs) env g w
      = (g, logged w [Log "debug" msg], Ok tt).
Proof.
  unfold climate.update_from_websocket_message.
  intros [H | (group_kvs & H & H')]; cbn; rewrite H; cbn; [| rewrite H'; cbn];
    eexists; reflexivity.
Qed.

(** C4, on the code. A light event whose [state] lacks [bri] is logged and
    skipped. A cover event whose [state] lacks [moving] is not: [KeyError]
    comes out of the handle (no field was written yet). An HVAC event whose
    [state] has [ambient_temperature] only is not either: the current
    temperature is overwritten and then [KeyError] comes out. *)
Theorem C4_missing_state_field_raises :
  light.update_from_websocket_message (load_event 42 [("flags", VDict [])])
      (http_only always_500) light42 initial
    = (light42,
       logged initial
         [Log "debug" "No bri in websocket message, skipping update of light with id %s"],
       Ok tt)
  /\ cover.update_from_websocket_message (load_event 7 [("level", VInt 2500)])
      (http_only always_500) cover7_half initial
    = (cover7_half, initial, Raise (KeyError "moving"))
  /\ climate.update_from_websocket_message
      (hvacgroup_event 3 [("ambient_temperature", VFloat 19)])
      (http_only always_500) group3_heating initial
    = (climate.set_current_temperature (VFloat 19) group3_heating, initial,
       Raise (KeyError "target_temperature"))
  /\ climate._current_temperature group3_heating = VFloat 20.5
  /\ climate._current_temperature
       (climate.set_current_temperature (VFloat 19) group3_heating) = VFloat 19.
Proof. repeat split; reflexivity. Qed.

(** C10, on the code. Each command writes before it sends, and a failed
    request leaves that write in place: brightness 128 for the light,
    position 100 for open, position 30 for set-position 30. Close asks the
    vendor for level 10000, which is position 0, and leaves position 100. *)
Theorem C10_failed_command_keeps_early_write :
  (exists w',
      light.async_turn_on ATTR_BRIGHTNESS [(ATTR_BRIGHTNESS, VInt 128)]
        (http_only always_500) light42 initial
      = (light.set_brightness (VInt 128) light42, w', Raise FellerApiException)
      /\ requests (trace w') =
           [HttpRequest "PUT" "http://wiser.local/api/loads/42/target_state"
              (VDict [("bri", VInt 5020)])])
  /\ (exists w',
      cover.async_open_cover ATTR_POSITION [] (http_only always_500) cover7_half initial
      = (cover.set_position (VInt 100) cover7_half, w', Raise FellerApiException)
      /\ requests (trace w') =
           [HttpRequest "PUT" "http://wiser.local/api/loads/7/target_state"
              (VDict [("level", VInt 0)])])
  /\ (exists w',
      cover.async_set_cover_position ATTR_POSITION [(ATTR_POSITION, VInt 30)]
        (http_only always_500) cover7_half initial
      = (cover.set_position (VInt 30) cover7_half, w', Raise FellerApiException)
      /\ requests (trace w') =
           [HttpRequest "PUT" "http://wiser.local/api/loads/7/target_state"
              (VDict [("level", VInt 7000)])])
  /\ (exists w',
      cover.async_close_cover ATTR_POSITION [] (http_only always_500) cover7_half initial
      = (cover.set_position (VInt 100) cover7_half, w', Raise FellerApiException)
      /\ requests (trace w') =
           [HttpRequest "PUT" "http://wiser.local/api/loads/7/target_state"
              (VDict [("level", VInt 10000)])]).
Proof.
  split; [| split; [| split]]; eexists; (split; [lazy; reflexivity | reflexivity]).
Qed.

End HandleFacts.

(* ===================================================================== *)
(** ** Properties of the router and of the supervisor                     *)
(* ===================================================================== *)

Module MainFacts.
Import main Spec.

(** *** The event router *)

Lemma logged_nil w : logged w [] = w.
Proof. destruct w. unfold logged, after_requests. simpl. now rewrite app_nil_r. Qed.

Lemma get_id_none kvs env (reg : registry) w :
  kind_value kvs = None ->
  _get_wiser_entity_id (VDict kvs) env reg w = (reg, w, Ok VNone).
Proof.
  unfold kind_value, _get_wiser_entity_id. intros H.
  destruct (assoc "load" kvs) eqn:E; [discriminate |].
  cbn. rewrite E. cbn. rewrite H. reflexivity.
Qed.

Lemma get_id_missing kvs kk env (reg : registry) w :
  kind_value kvs = Some (VDict kk) ->
  assoc "id" kk = None ->
  exists msg, _get_wiser_entity_id (VDict kvs) env reg w
              = (reg, logged w [Log "debug" msg], Ok VNone).
Proof.
  unfold kind_value, _get_wiser_entity_id. intros H Hid.
  destruct (assoc "load" kvs) eqn:E.
  - injection H as ->. cbn. rewrite E. cbn. rewrite Hid. cbn. eexists. reflexivity.
  - cbn. rewrite E. cbn. rewrite H. cbn. rewrite Hid. cbn. eexists. reflexivity.
Qed.

Lemma get_id_found kvs kk id env (reg : registry) w :
  kind_value kvs = Some (VDict kk) ->
  assoc "id" kk = Some id ->
  _get_wiser_entity_id (VDict kvs) env reg w = (reg, w, Ok id).
Proof.
  unfold kind_value, _get_wiser_entity_id. intros H Hid.
  destruct (assoc "load" kvs) eqn:E.
  - injection H as ->. cbn. rewrite E. cbn. rewrite Hid. cbn. now rewrite Hid.
  - cbn. rewrite E. cbn. rewrite H. cbn. rewrite Hid. cbn. now rewrite Hid.
Qed.

Lemma first_match_none id (reg : registry) :
  (forall h, In h reg -> eq_int id (wiser_entity_id h) = false) ->
  first_match id reg = None.
Proof.
  induction reg as [| e reg IH]; intros H; simpl; [reflexivity |].
  rewrite (H e (or_introl eq_refl)). rewrite IH; [reflexivity |].
  intros h Hh. apply H. now right.
Qed.

Lemma first_match_some id (reg : registry) i h :
  reg !! i = Some h ->
  eq_int id (wiser_entity_id h) = true ->
  (forall j h2, (j < i)%nat -> reg !! j = Some h2 -> eq_int id (wiser_entity_id h2) = false) ->
  first_match id reg = Some i.
Proof.
  revert i. induction reg as [| e reg IH]; intros i Hi Hm Hfirst; [discriminate |].
  destruct i as [| i]; simpl in *.
  - injection Hi as ->. now rewrite Hm.
  - rewrite (Hfirst O e ltac:(lia) eq_refl).
    rewrite (IH i Hi Hm); [reflexivity |].
    intros j h2 Hj Hl. apply (Hfirst (S j) h2); [lia | exact Hl].
Qed.

Lemma float_cmp_int_functional f a b :
  float_cmp_int f a = Some Eq -> float_cmp_int f b = Some Eq -> a = b.
Proof.
  unfold float_cmp_int. destruct (Prim2SF f) as [s | s | | s m e].
  - intros Ha Hb. destruct a, b; simpl in *; try discriminate; reflexivity.
  - destruct s; discriminate.
  - discriminate.
  - destruct (e <? 0) eqn:Ee; intros Ha Hb; injection Ha as Ha; injection Hb as Hb;
      apply Z.compare_eq in Ha, Hb.
    + apply Z.ltb_lt in Ee.
      assert (0 < 2 ^ (- e)) by (apply Z.pow_pos_nonneg; lia). nia.
    + congruence.
Qed.

Lemma eq_int_functional id a b : eq_int id a = true -> eq_int id b = true -> a = b.
Proof.
  destruct id as [| [] | z | f | | |]; unfold eq_int; try discriminate.
  - intros Ha Hb. apply Z.eqb_eq in Ha, Hb. congruence.
  - intros Ha Hb. apply Z.eqb_eq in Ha, Hb. congruence.
  - intros Ha Hb. apply Z.eqb_eq in Ha, Hb. congruence.
  - destruct (float_cmp_int f a) as [[] |] eqn:Ea; try discriminate.
    destruct (float_cmp_int f b) as [[] |] eqn:Eb; try discriminate.
    intros _ _. now apply float_cmp_int_functional with f.
Qed.

(** With identifiers that are unique in the registry, at most one handle
    answers to an identifier. *)
Lemma unique_ids_single_match (reg : registry) id i j h h2 :
  NoDup (wiser_entity_id <$> reg) ->
  reg !! i = Some h -> eq_int id (wiser_entity_id h) = true ->
  reg !! j = Some h2 -> eq_int id (wiser_entity_id h2) = true ->
  j = i.
Proof.
  intros Hnd Hi Hm Hj Hm2.
  assert (wiser_entity_id h2 = wiser_entity_id h) as Heq
    by (eapply eq_int_functional; eassumption).
  apply (NoDup_lookup _ j i (wiser_entity_id h) Hnd).
  - rewrite list_lookup_fmap, Hj. simpl. now rewrite Heq.
  - rewrite list_lookup_fmap, Hi. reflexivity.
Qed.

(** C3, as the code has it. For an envelope that is an object, and whose
    value under the kind key is an object: the router calls the push-update
    entry point of the first registered handle whose identifier equals the id
    under [load] (or, when [load] is absent, under [hvacgroup]), with the
    whole envelope, and leaves every other handle alone; when identifiers are
    unique that handle is the only one with this identifier. It does
    nothing, and raises nothing, when neither key is present, when the kind
    object has no [id], and when no registered handle has the identifier. *)
Theorem C3_event_router kvs env (reg : registry) w :
  (kind_value kvs = None -> route (VDict kvs) env reg w = (reg, w, Ok tt))
  /\ (forall kk,
        kind_value kvs = Some (VDict kk) ->
        (assoc "id" kk = None ->
           exists msg, route (VDict kvs) env reg w = (reg, logged w [Log "debug" msg], Ok tt))
        /\ (forall id,
              assoc "id" kk = Some id ->
              ((forall h, In h reg -> eq_int id (wiser_entity_id h) = false) ->
                 exists w', route (VDict kvs) env reg w = (reg, w', Ok tt) /\ quiet w w')
              /\ (forall i h,
                    reg !! i = Some h ->
                    eq_int id (wiser_entity_id h) = true ->
                    (forall j h2, (j < i)%nat -> reg !! j = Some h2 ->
                                  eq_int id (wiser_entity_id h2) = false) ->
                    exists h' w' r,
                      update_from_websocket_message (VDict kvs) env h w = (h', w', r)
                      /\ route (VDict kvs) env reg w = (<[i := h']> reg, w', r)
                      /\ (forall j, j <> i -> <[i := h']> reg !! j = reg !! j)
                      /\ (NoDup (wiser_entity_id <$> reg) ->
                          forall j h2, reg !! j = Some h2 ->
                                       eq_int id (wiser_entity_id h2) = true -> j = i)))).
Proof.
  split.
  - intros H. unfold route, bind. now rewrite get_id_none.
  - intros kk Hk. split.
    + intros Hid. destruct (get_id_missing kvs kk env reg w Hk Hid) as (msg & E).
      exists msg. unfold route, bind. now rewrite E.
    + intros id Hid. split.
      * intros Hnone. unfold route, bind. rewrite (get_id_found kvs kk id env reg w Hk Hid).
        destruct id;
          try (eexists; split; [reflexivity | now left]);
          unfold get; rewrite first_match_none by exact Hnone;
          (eexists; split; [reflexivity | right; eexists; reflexivity]).
      * intros i h Hi Hm Hfirst.
        destruct (update_from_websocket_message (VDict kvs) env h w) as [[h' w'] r] eqn:E.
        exists h', w', r. split; [reflexivity |]. split; [| split].
        -- unfold route, bind. rewrite (get_id_found kvs kk id env reg w Hk Hid).
           destruct id; try discriminate Hm;
             unfold get; rewrite (first_match_some _ reg i h Hi Hm Hfirst);
             unfold at_index; rewrite Hi, E; reflexivity.
        -- intros j Hj. apply list_lookup_insert_ne. congruence.
        -- intros Hnd j h2 Hj Hm2.
           eapply unique_ids_single_match; eassumption.
Qed.

(** *** Only ordinary exceptions come out of the message handler *)

Lemma safe_ok {A} (a : A) : safe (Ok a).
Proof. intros e H. discriminate. Qed.

Lemma safe_raise {A} e : is_Exception e = true -> safe (@Raise A e).
Proof. intros H e' E. now injection E as <-. Qed.

Lemma safe_rbind {A B} (r : result A) (k : A -> result B) :
  safe r -> (forall a, safe (k a)) -> safe (rbind r k).
Proof.
  intros Hr Hk. destruct r as [a | e]; simpl; [apply Hk |].
  intros e' E. injection E as <-. now apply Hr.
Qed.

Ltac safe_cases :=
  repeat first
    [ apply safe_ok
    | apply safe_raise; reflexivity
    | apply safe_rbind; [| intros ?]
    | match goal with
      | |- safe (match ?x with _ => _ end) => destruct x
      | |- safe (if ?x then _ else _) => destruct x
      end ].

Lemma safe_getitem v k : safe (getitem v k).
Proof. unfold getitem. safe_cases. Qed.

Lemma safe_contains k v : safe (contains k v).
Proof. unfold contains. safe_cases. Qed.

Lemma safe_int_to_float z : safe (int_to_float z).
Proof. unfold int_to_float. safe_cases. Qed.

Lemma safe_int_truediv a b : safe (int_truediv a b).
Proof. unfold int_truediv. safe_cases. Qed.

Lemma safe_div_float v k : safe (div_float v k).
Proof. unfold div_float, as_float. safe_cases; apply safe_int_to_float. Qed.

Lemma safe_div_int v n : safe (div_int v n).
Proof.
  unfold div_int. destruct v; try (apply safe_raise; reflexivity);
    try apply safe_int_truediv.
  apply safe_rbind; [apply safe_int_to_float | intros ?; safe_cases].
Qed.

Lemma safe_int_sub n v : safe (int_sub n v).
Proof.
  unfold int_sub. destruct v; try (apply safe_raise; reflexivity); try apply safe_ok.
  apply safe_rbind; [apply safe_int_to_float | intros ?; safe_cases].
Qed.

Lemma safe_cmp_int v n : safe (cmp_int v n).
Proof. unfold cmp_int. safe_cases. Qed.

Lemma safe_gt_int v n : safe (gt_int v n).
Proof. unfold gt_int. apply safe_rbind; [apply safe_cmp_int | intros ?; apply safe_ok]. Qed.

Lemma safe_ge_int v n : safe (ge_int v n).
Proof. unfold ge_int. apply safe_rbind; [apply safe_cmp_int | intros ?; apply safe_ok]. Qed.

Lemma safe_le_int v n : safe (le_int v n).
Proof. unfold le_int. apply safe_rbind; [apply safe_cmp_int | intros ?; apply safe_ok]. Qed.

Lemma safe_json_loads f : safe (json_loads f).
Proof. unfold json_loads. safe_cases. Qed.

Create HintDb safe_db.
#[local] Hint Resolve safe_getitem safe_contains safe_div_float safe_div_int safe_int_sub
  safe_gt_int safe_ge_int safe_le_int safe_json_loads safe_ok : safe_db.

Section Benign.
Context {St : Type}.
Variable env : script.

Lemma benign_ret {A} (a : A) : benign (St := St) env (ret a).
Proof. intros s w s' w' e H. discriminate. Qed.

Lemma benign_raise {A} e : is_Exception e = true -> benign (St := St) (A := A) env (raise e).
Proof. intros He s w s' w' e' H. unfold raise in H. now injection H as _ _ <-. Qed.

Lemma benign_lift {A} (r : result A) : safe r -> benign (St := St) env (lift r).
Proof. intros Hr s w s' w' e H. unfold lift in H. injection H as _ _ Hr'. now apply Hr. Qed.

Lemma benign_get : benign (St := St) env get.
Proof. intros s w s' w' e H. discriminate. Qed.

Lemma benign_modify f : benign (St := St) env (modify f).
Proof. intros s w s' w' e H. discriminate. Qed.

Lemma benign_emit ev : benign (St := St) env (emit ev).
Proof. intros s w s' w' e H. discriminate. Qed.

Lemma benign_bind {A B} (c : M St A) (k : A -> M St B) :
  benign env c -> (forall a, benign env (k a)) -> benign env (bind c k).
Proof.
  intros Hc Hk s w s' w' e H. unfold bind in H.
  destruct (c env s w) as [[s1 w1] [a | e1]] eqn:E.
  - now apply (Hk a s1 w1 s' w' e).
  - injection H as _ _ <-. now apply (Hc s w s1 w1 e1).
Qed.

Lemma benign_try_except {A} (c : M St A) handles h :
  benign env c -> (forall e, benign env (h e)) -> benign env (try_except c handles h).
Proof.
  intros Hc Hh s w s' w' e H. unfold try_except in H.
  destruct (c env s w) as [[s1 w1] [a | e1]] eqn:E; [discriminate |].
  destruct (handles e1).
  - now apply (Hh e1 s1 w1 s' w' e).
  - injection H as _ _ <-. now apply (Hc s w s1 w1 e1).
Qed.

(** A bare [except:] lets nothing of the body through. *)
Lemma benign_try_all {A} (c : M St A) h :
  (forall e, benign env (h e)) -> benign env (try_except c (fun _ => true) h).
Proof.
  intros Hh s w s' w' e H. unfold try_except in H.
  destruct (c env s w) as [[s1 w1] [a | e1]] eqn:E; [discriminate |].
  now apply (Hh e1 s1 w1 s' w' e).
Qed.

End Benign.

Ltac benign_cases :=
  unfold log, sleep;
  repeat first
    [ apply benign_ret
    | apply benign_get
    | apply benign_modify
    | apply benign_emit
    | apply benign_raise; reflexivity
    | apply benign_lift; auto with safe_db
    | apply benign_bind; [| intros ?]
    | apply benign_try_except; [| intros ?]
    | match goal with
      | |- benign _ (match ?x with _ => _ end) => destruct x
      | |- benign _ (if ?x then _ else _) => destruct x
      end ].

Lemma benign_light_update env message :
  benign env (light.update_from_websocket_message message).
Proof. unfold light.update_from_websocket_message, light.is_fading. benign_cases. Qed.

Lemma benign_cover_update env message :
  benign env (cover.update_from_websocket_message message).
Proof. unfold cover.update_from_websocket_message, cover.store_position. benign_cases. Qed.

Lemma benign_climate_update env message :
  benign env (climate.update_from_websocket_message message).
Proof.
  unfold climate.update_from_websocket_message, climate._update_from_state. benign_cases.
Qed.

Lemma benign_update env message : benign env (update_from_websocket_message message).
Proof.
  intros h w h' w' e H. unfold update_from_websocket_message in H.
  destruct h as [l | c | g].
  - destruct (light.update_from_websocket_message message env l w) as [[l1 w1] r] eqn:E.
    injection H as _ _ ->. eapply benign_light_update; eassumption.
  - destruct (cover.update_from_websocket_message message env c w) as [[c1 w1] r] eqn:E.
    injection H as _ _ ->. eapply benign_cover_update; eassumption.
  - destruct (climate.update_from_websocket_message message env g w) as [[g1 w1] r] eqn:E.
    injection H as _ _ ->. eapply benign_climate_update; eassumption.
Qed.

Lemma benign_at_index {St} env i (c : M St unit) :
  benign env c -> benign env (at_index i c).
Proof.
  intros Hc l w l' w' e H. unfold at_index in H.
  destruct (l !! i) as [s |].
  - destruct (c env s w) as [[s1 w1] r] eqn:E. injection H as _ _ ->.
    eapply Hc; eassumption.
  - now injection H as _ _ <-.
Qed.

Lemma benign_route env message : benign env (route message).
Proof.
  unfold route, _get_wiser_entity_id.
  benign_cases; apply benign_at_index, benign_update.
Qed.

Lemma benign_handle env : civil env -> benign env _handle_websocket_message.
Proof.
  intros [_ Hrecv]. unfold _handle_websocket_message.
  apply benign_bind.
  - apply benign_try_except.
    + apply benign_bind; [apply benign_emit | intros _].
      apply benign_bind; [| intros ?; apply benign_ret].
      intros s w s' w' e H. unfold next_recv in H. injection H as _ _ H.
      now apply Hrecv in H.
    + intros e. apply benign_try_all. intros ?. benign_cases.
  - intros [f | |]; [| benign_cases ..].
    apply benign_bind; [apply benign_emit | intros _].
    apply benign_bind; [apply benign_lift, safe_json_loads | intros message].
    apply benign_route.
Qed.

(** *** The supervisor *)

Section Supervisor.
Variables host apikey : string.

Ltac trace_norm := rewrite <- ?app_assoc; simpl.

Lemma on_exception_alive e env (reg : registry) w :
  is_Exception e = true ->
  exists w', on_exception e env reg w = (reg, w', Ok Disconnected).
Proof.
  intros He. destruct e; try discriminate He; eexists; reflexivity.
Qed.

(** An iteration never ends the task, and never leaves its loops. *)
Lemma step_alive env t (reg : registry) w :
  civil env -> alive t ->
  exists reg' w' t', step host apikey t env reg w = (reg', w', Ok t') /\ alive t'.
Proof.
  intros Hc Ht. destruct t as [| session | e]; [| | destruct Ht].
  - unfold step, bind, try_except, log, emit, next_connect, ret; simpl.
    destruct (connects env (n_connect w)) as [[] | e] eqn:E; simpl.
    + eexists _, _, _. split; [reflexivity | exact I].
    + destruct Hc as [Hconn _]. apply Hconn in E.
      match goal with |- context [on_exception e env ?r ?w0] =>
        destruct (on_exception_alive e env r w0 E) as (w' & ->) end.
      eexists _, _, _. split; [reflexivity | exact I].
  - unfold step, try_except, bind.
    destruct (_handle_websocket_message env reg w) as [[reg1 w1] [[] | e]] eqn:E.
    + unfold ret. eexists _, _, _. split; [reflexivity | exact I].
    + apply (benign_handle env Hc) in E. unfold emit.
      match goal with |- context [on_exception e env ?r ?w0] =>
        destruct (on_exception_alive e env r w0 E) as (w' & ->) end.
      eexists _, _, _. split; [reflexivity | exact I].
Qed.

Lemma iterate_alive env fuel : forall t (reg : registry) w,
  civil env -> alive t ->
  exists reg' w' t', iterate host apikey fuel t env reg w = (reg', w', Ok t') /\ alive t'.
Proof.
  induction fuel as [| fuel IH]; intros t reg w Hc Ht; simpl.
  - exists reg, w, t. now split.
  - destruct (step_alive env t reg w Hc Ht) as (reg1 & w1 & t1 & E & Ht1).
    unfold bind. rewrite E. now apply IH.
Qed.

(** What a failed name lookup or a refused connection does to one
    iteration: an error line, ten seconds of sleep, back to the head of the
    outer loop. *)
Lemma step_dns_or_refused env (reg : registry) w :
  dns_or_refused (connects env (n_connect w)) ->
  exists msg,
    step host apikey Disconnected env reg w
    = (reg,
       World (n_http w) (S (n_connect w)) (n_recv w) (n_ping w)
         (trace w ++ [Log "info" "Creating new websocket connection";
                      WsConnect ("ws://" +:+ host +:+ "/api");
                      Log "error" msg;
                      Sleep 10]),
       Ok Disconnected).
Proof.
  intros [E | E];
    unfold step, on_exception, bind, try_except, log, sleep, emit, next_connect, ret; simpl;
    rewrite E; simpl; trace_norm; eexists; reflexivity.
Qed.

Lemma connections_app a b : connections (a ++ b) = connections a ++ connections b.
Proof. unfold connections. apply List.filter_app. Qed.

(** As long as every attempt fails this way, every iteration is one more
    attempt followed by ten seconds of sleep. *)
Lemma retries_forever env fuel : forall (reg : registry) w,
  (forall n, dns_or_refused (connects env n)) ->
  exists w',
    iterate host apikey fuel Disconnected env reg w = (reg, w', Ok Disconnected)
    /\ n_connect w' = (fuel + n_connect w)%nat
    /\ sleeps (trace w') = sleeps (trace w) ++ repeat 10 fuel
    /\ length (connections (trace w')) = (fuel + length (connections (trace w)))%nat.
Proof.
  induction fuel as [| fuel IH]; intros reg w Hall; cbn [iterate].
  - exists w. simpl. rewrite app_nil_r. auto.
  - destruct (step_dns_or_refused env reg w (Hall _)) as (msg & E).
    unfold bind at 1. rewrite E.
    match goal with |- context [iterate _ _ _ _ _ _ ?w1] =>
      destruct (IH reg w1 Hall) as (w' & E' & Hn & Hs & Hc) end.
    exists w'. rewrite E'. simpl in Hn, Hs, Hc.
    rewrite ClientFacts.sleeps_app in Hs. rewrite connections_app in Hc.
    simpl in Hs, Hc. rewrite length_app in Hc. simpl in Hc.
    split; [reflexivity | split; [lia | split; [| lia]]].
    rewrite Hs, <- app_assoc. reflexivity.
Qed.

(** C2. Against a peer that raises ordinary exceptions only, the supervisor
    is still in one of its loops after any number of iterations: nothing
    ends it. A failed name lookup or a refused connection costs an error
    line and ten seconds, after which the next iteration connects again; and
    so on for as long as the failures last. *)
Theorem C2_supervisor_never_exits env (reg : registry) w :
  (civil env ->
     forall fuel, exists reg' w' t,
       establish_websocket host apikey fuel env reg w = (reg', w', Ok t) /\ alive t)
  /\ (dns_or_refused (connects env (n_connect w)) ->
      exists msg,
        step host apikey Disconnected env reg w
        = (reg,
           World (n_http w) (S (n_connect w)) (n_recv w) (n_ping w)
             (trace w ++ [Log "info" "Creating new websocket connection";
                          WsConnect ("ws://" +:+ host +:+ "/api");
                          Log "error" msg;
                          Sleep 10]),
           Ok Disconnected))
  /\ ((forall n, dns_or_refused (connects env n)) ->
      forall fuel, exists w',
        establish_websocket host apikey fuel env reg w = (reg, w', Ok Disconnected)
        /\ n_connect w' = (fuel + n_connect w)%nat
        /\ sleeps (trace w') = sleeps (trace w) ++ repeat 10 fuel
        /\ length (connections (trace w')) = (fuel + length (connections (trace w)))%nat).
Proof.
  split; [| split].
  - intros Hc fuel. unfold establish_websocket. now apply iterate_alive.
  - apply step_dns_or_refused.
  - intros Hall fuel. unfold establish_websocket. now apply retries_forever.
Qed.

(** The receive fails with a timeout or a closed connection and the ping
    fails too: the iteration sleeps ten seconds and ends where it began, in
    the inner loop on the same connection. *)
Lemma step_ping_failure env session (reg : registry) w e e' :
  recvs env (n_recv w) = Raise e ->
  e = TimeoutError \/ e = ConnectionClosed ->
  pings env (n_ping w) = Raise e' ->
  step host apikey (Connected session) env reg w
  = (reg,
     World (n_http w) (n_connect w) (S (n_recv w)) (S (n_ping w))
       (trace w ++ [WsRecv; WsPing;
                    Log "info" "Ping error - retrying connection in 10 sec (Ctrl-C to quit)";
                    Sleep 10]),
     Ok (Connected session)).
Proof.
  intros Er He Ep.
  unfold step, on_exception, _handle_websocket_message, bind, try_except, log, sleep, emit,
    next_recv, next_ping, ret; simpl.
  rewrite Er. destruct He as [-> | ->]; simpl; rewrite Ep; simpl; trace_norm; reflexivity.
Qed.

(** The receive fails with a timeout or a closed connection and the ping is
    answered: the handler reads the unbound [result], the connection is left
    and the outer loop starts over. *)
Lemma step_ping_ok env session (reg : registry) w e :
  recvs env (n_recv w) = Raise e ->
  e = TimeoutError \/ e = ConnectionClosed ->
  pings env (n_ping w) = Ok tt ->
  step host apikey (Connected session) env reg w
  = (reg,
     World (n_http w) (n_connect w) (S (n_recv w)) (S (n_ping w))
       (trace w ++ [WsRecv; WsPing;
                    Log "info" "Ping OK, keeping connection alive";
                    WsClose;
                    Log "error" "Unhadled Exception occured in WebSocket loop: %s"]),
     Ok Disconnected).
Proof.
  intros Er He Ep.
  unfold step, on_exception, _handle_websocket_message, bind, try_except, log, sleep, emit,
    next_recv, next_ping, ret, raise; simpl.
  rewrite Er. destruct He as [-> | ->]; simpl; rewrite Ep; simpl; trace_norm; reflexivity.
Qed.

(** On a connection that is gone, where every receive and every ping fails,
    the task sleeps ten seconds per iteration and stays in the inner loop: it
    never connects again. *)
Lemma stuck_on_dead_connection env session fuel : forall (reg : registry) w,
  (forall n, recvs env n = Raise ConnectionClosed) ->
  (forall n, exists e, pings env n = Raise e) ->
  exists w',
    iterate host apikey fuel (Connected session) env reg w = (reg, w', Ok (Connected session))
    /\ n_connect w' = n_connect w
    /\ connections (trace w') = connections (trace w)
    /\ sleeps (trace w') = sleeps (trace w) ++ repeat 10 fuel.
Proof.
  induction fuel as [| fuel IH]; intros reg w Hr Hp; cbn [iterate].
  - exists w. simpl. rewrite app_nil_r. auto.
  - destruct (Hp (n_ping w)) as (e' & Ep).
    unfold bind at 1.
    rewrite (step_ping_failure env session reg w ConnectionClosed e' (Hr _)
               (or_intror eq_refl) Ep).
    match goal with |- context [iterate _ _ _ _ _ _ ?w1] =>
      destruct (IH reg w1 Hr Hp) as (w' & E' & Hn & Hc & Hs) end.
    exists w'. rewrite E'. simpl in Hn, Hc, Hs.
    rewrite ClientFacts.sleeps_app in Hs. rewrite connections_app in Hc.
    simpl in Hs, Hc. rewrite app_nil_r in Hc.
    split; [reflexivity | split; [exact Hn | split; [exact Hc |]]].
    rewrite Hs, <- app_assoc. reflexivity.
Qed.

End Supervisor.

Import Scenario.

(** C3 at work: an event for load 42 reaches the light 42, which is the
    first handle of the registry, and an envelope of another kind reaches
    nobody. *)
Lemma C3_witness :
  (exists h' w' r,
      update_from_websocket_message (load_event 42 [("bri", VInt 980)]) idle
        (Light light42) initial = (h', w', r)
      /\ route (load_event 42 [("bri", VInt 980)]) idle home initial
         = (<[O := h']> home, w', r)
      /\ (forall j, j <> O -> <[O := h']> home !! j = home !! j)
      /\ (NoDup (wiser_entity_id <$> home) ->
          forall j h2, home !! j = Some h2 ->
                       eq_int (VInt 42) (wiser_entity_id h2) = true -> j = O))
  /\ route (VDict [("time", VInt 1700000000)]) idle home initial = (home, initial, Ok tt).
Proof.
  split.
  - apply (proj2 (proj2 (proj2 (C3_event_router
                                  [("load", VDict [("id", VInt 42);
                                                   ("state", VDict [("bri", VInt 980)])])]
                                  idle home initial)
                               [("id", VInt 42); ("state", VDict [("bri", VInt 980)])]
                               eq_refl)
                        (VInt 42) eq_refl)
                 O (Light light42) eq_refl eq_refl).
    intros j h2 Hj. exfalso. exact (Nat.nlt_0_r j Hj).
  - exact (proj1 (C3_event_router [("time", VInt 1700000000)] idle home initial) eq_refl).
Defined.

(** C3 as stated fails on envelopes whose kind value is no object. For
    [{"load": null}] the test ["id" not in message["load"]] of
    [_get_wiser_entity_id] raises [TypeError], and so does the test
    ["load" in message] for an envelope that is a number: no handle is
    called and no state changes, but the router raises. *)
Lemma C3_null_kind_value_raises :
  kind_value [("load", VNone)] = Some VNone
  /\ route (VDict [("load", VNone)]) idle home initial = (home, initial, Raise TypeError)
  /\ route (VInt 5) idle home initial = (home, initial, Raise TypeError)
  /\ ~ (exists w', route (VDict [("load", VNone)]) idle home initial = (home, w', Ok tt)).
Proof.
  split; [reflexivity |]. split; [reflexivity |]. split; [reflexivity |].
  intros (w' & E). discriminate E.
Qed.

(** The event of the specification, end to end: received on the websocket
    with cover 7 in the registry. *)
Lemma cover_event_end_to_end :
  exists c' w',
    _handle_websocket_message talking home initial
      = ([Light light42; Cover c'; HvacGroup group3], w', Ok tt)
    /\ cover._position c' = VFloat 75
    /\ cover._is_closing c' = true
    /\ cover._is_opening c' = false
    /\ cover._is_partially_opened c' = true
    /\ trace w' = [WsRecv;
                   Log "debug" "Reveived the following message form wiser: %s";
                   ScheduleUpdate "7"].
Proof. eexists _, _. split; [lazy; reflexivity | repeat split; reflexivity]. Qed.

Lemma civil_unresolvable : civil unresolvable.
Proof.
  split; intros n e H; simpl in H; injection H as <-; reflexivity.
Defined.

(** C2 at work: a host name that never resolves. After three iterations the
    task has tried three times, slept three times ten seconds and stands at
    the head of its outer loop. *)
Lemma C2_witness :
  civil unresolvable
  /\ (exists reg' w' t,
        establish_websocket "wiser.local" "secret" 3 unresolvable home initial
          = (reg', w', Ok t) /\ alive t)
  /\ (exists w',
        establish_websocket "wiser.local" "secret" 3 unresolvable home initial
          = (home, w', Ok Disconnected)
        /\ n_connect w' = (3 + n_connect initial)%nat
        /\ sleeps (trace w') = sleeps (trace initial) ++ repeat 10 3
        /\ length (connections (trace w')) = (3 + length (connections (trace initial)))%nat).
Proof.
  split; [exact civil_unresolvable | split].
  - exact (proj1 (C2_supervisor_never_exits "wiser.local" "secret" unresolvable home initial)
             civil_unresolvable 3%nat).
  - exact (proj2 (proj2 (C2_supervisor_never_exits "wiser.local" "secret"
                           unresolvable home initial))
             (fun n => or_introl eq_refl) 3%nat).
Defined.

(** C1, on the code. After a closed connection and a failed ping the task
    sleeps ten seconds and calls the handler again on the same connection:
    whatever the number of iterations, it has connected once and is in
    session 0. After a receive timeout and an answered ping the handler
    raises [UnboundLocalError], the connection is left and a new one is
    opened at once: session 1, no sleep. *)
Theorem C1_ping_outcomes_on_the_code :
  (forall fuel, exists w',
      establish_websocket "wiser.local" "secret" (S fuel) gone home initial
        = (home, w', Ok (Connected 0))
      /\ n_connect w' = 1%nat
      /\ connections (trace w') = [WsConnect "ws://wiser.local/api"]
      /\ sleeps (trace w') = repeat 10 fuel)
  /\ establish_websocket "wiser.local" "secret" 3 idle home initial
     = (home,
        World 0 2 1 1
          [Log "info" "Creating new websocket connection";
           WsConnect "ws://wiser.local/api";
           WsRecv; WsPing;
           Log "info" "Ping OK, keeping connection alive";
           WsClose;
           Log "error" "Unhadled Exception occured in WebSocket loop: %s";
           Log "info" "Creating new websocket connection";
           WsConnect "ws://wiser.local/api"],
        Ok (Connected 1)).
Proof.
  split; [| reflexivity].
  intros fuel. unfold establish_websocket. cbn [iterate]. unfold bind at 1.
  change (step "wiser.local" "secret" Disconnected gone home initial)
    with (home,
          World 0 1 0 0 [Log "info" "Creating new websocket connection";
                         WsConnect "ws://wiser.local/api"],
          Ok (Connected 0)).
  cbv beta iota.
  match goal with |- context [iterate _ _ _ _ _ _ ?w1] =>
    destruct (stuck_on_dead_connection "wiser.local" "secret" gone 0%nat fuel home w1
                (fun _ => eq_refl) (fun _ => ex_intro _ ConnectionClosed eq_refl))
      as (w' & E & Hn & Hc & Hs) end.
  exists w'. rewrite E. auto.
Qed.

End MainFacts.

(* ===================================================================== *)
(** ** Further properties of the API client                               *)
(* ===================================================================== *)

Module ClientMore.
Import feller_client Spec.

Lemma delays_sum i k :
  2 * fold_right Z.add 0 (delays i k) = Z.of_nat k * (2 * i + Z.of_nat k + 1).
Proof.
  revert i. induction k as [| k IH]; intros i; [simpl; lia |].
  cbn [delays fold_right]. specialize (IH (i + 1)). lia.
Qed.

Lemma delays_nth i k j : (j < k)%nat -> nth j (delays i k) 0 = i + 1 + Z.of_nat j.
Proof.
  revert i j. induction k as [| k IH]; intros i j Hj; [lia |].
  destruct j as [| j]; cbn [delays nth]; [lia |].
  rewrite IH by lia. lia.
Qed.

Section WithState.
Context {St : Type}.
Variable self : FellerApiClient.

(** X1. For any retry count [n]: [k < n] failures followed by a success give the
    success after [k + 1] requests; the sleep after the [j]-th failure is [j]
    seconds, [k (k + 1) / 2] seconds in all. *)
Theorem retry_succeeds_after_failures n k endpoint method data env (s : St) w res :
  (k < Z.to_nat n)%nat ->
  (forall j, (j < k)%nat -> failing (http env (n_http w + j))) ->
  succeeding (http env (n_http w + k)) res ->
  exists logs,
    _send_request_with_retry_async self endpoint n method data env s w
      = (s, after_requests w (S k) logs, Ok res)
    /\ length (requests logs) = S k
    /\ length (sleeps logs) = k
    /\ (forall j, (j < k)%nat -> nth j (sleeps logs) 0 = Z.of_nat j + 1)
    /\ 2 * fold_right Z.add 0 (sleeps logs) = Z.of_nat k * (Z.of_nat k + 1).
Proof.
  intros Hk Hfail Hok. unfold _send_request_with_retry_async.
  destruct (ClientFacts.retry_loop_success self k (Z.to_nat n) 0 endpoint method data
              env s w res Hk Hfail Hok) as (logs & E & Hs & Hr).
  exists logs. rewrite Hs. split; [exact E | split; [exact Hr | split; [| split]]].
  - clear. generalize 0. induction k as [| k IH]; intros i; simpl; [| rewrite IH]; reflexivity.
  - intros j Hj. rewrite delays_nth by exact Hj. lia.
  - rewrite delays_sum. lia.
Qed.

(** X2. For any retry count [n]: when every attempt fails the call raises
    [FellerApiException] after [max n 0] requests, having slept after each of
    them, the last one included: [n (n + 1) / 2] seconds in all. With a
    count of zero or less it raises at once, without any request. *)
Theorem retry_gives_up n endpoint method data env (s : St) w :
  (forall j, (j < Z.to_nat n)%nat -> failing (http env (n_http w + j))) ->
  exists logs,
    _send_request_with_retry_async self endpoint n method data env s w
      = (s, after_requests w (Z.to_nat n) logs, Raise FellerApiException)
    /\ length (requests logs) = Z.to_nat n
    /\ length (sleeps logs) = Z.to_nat n
    /\ (forall j, (j < Z.to_nat n)%nat -> nth j (sleeps logs) 0 = Z.of_nat j + 1)
    /\ 2 * fold_right Z.add 0 (sleeps logs) = Z.max n 0 * (Z.max n 0 + 1)
    /\ (n <= 0 -> logs = []).
Proof.
  intros Hfail. unfold _send_request_with_retry_async.
  destruct (ClientFacts.retry_loop_exhausted self (Z.to_nat n) 0 endpoint method data
              env s w Hfail) as (logs & E & Hs & Hr).
  exists logs. rewrite Hs.
  split; [exact E | split; [exact Hr | split; [| split; [| split]]]].
  - clear. generalize 0. induction (Z.to_nat n) as [| k IH]; intros i; simpl;
      [| rewrite IH]; reflexivity.
  - intros j Hj. rewrite delays_nth by exact Hj. lia.
  - rewrite delays_sum. lia.
  - intros Hn. assert (Z.to_nat n = 0%nat) as Hz by lia.
    rewrite Hz in E. cbn [retry_loop] in E. unfold raise in E.
    injection E as E. apply (f_equal trace) in E. simpl in E.
    rewrite <- (app_nil_r (trace w)) in E at 1.
    apply app_inv_head in E. now symmetry.
Qed.

Ltac trace_norm := rewrite <- ?app_assoc; simpl.
Ltac unfold_m :=
  cbv [bind lift ret raise try_except log sleep emit next_http get put modify
       handle_response].

Ltac shape :=
  eexists _, _; trace_norm;
  split; [reflexivity | split; [reflexivity | split; [reflexivity |]]].

Lemma is_str_success st : is_str "success" st = true -> st = VStr "success".
Proof.
  destruct st; simpl; try discriminate.
  intros H. apply String.eqb_eq in H. now subst.
Qed.

Lemma is_ClientError_true e : is_ClientError e = true -> e = ClientError.
Proof. destruct e; simpl; try discriminate; reflexivity. Qed.

(** X3. Whatever the exchange, one request goes out and nothing sleeps. A result
    comes back only from a response below 400 whose envelope says "success"
    and has [data]; [FellerApiException] comes from the three failures and
    from a body refused with a [ClientError]; every other exchange ends in
    the exception it met, unwrapped. *)
Theorem request_outcome_classified endpoint method data env (s : St) w :
  exists logs r,
    _send_request_async self endpoint method data env s w = (s, after_requests w 1 logs, r)
    /\ sleeps logs = []
    /\ requests logs = [HttpRequest method (url_of self endpoint) data]
    /\ match r with
       | Ok res => succeeding (http env (n_http w)) res
       | Raise e =>
           (e = FellerApiException /\ wrapped (http env (n_http w)))
           \/ escaping (http env (n_http w)) e
       end.
Proof.
  unfold _send_request_async, after_requests, url_of, wrapped; unfold_m; simpl.
  destruct (http env (n_http w)) as [status body | e]; simpl.
  - destruct (Z.leb_spec 400 status) as [Hs | Hs]; simpl.
    { shape.
      left. split; [reflexivity |]. left. now constructor. }
    destruct body as [d | e]; simpl.
    + destruct d as [| b | z | f | t | l | kvs]; simpl;
        try (shape; right;
             apply escaping_no_object; [exact Hs | intros kvs; discriminate]).
      destruct (assoc "status" kvs) as [st |] eqn:Est; simpl.
      * destruct (is_str "success" st) eqn:Esucc; simpl.
        -- apply is_str_success in Esucc. subst st.
           destruct (assoc "data" kvs) as [payload |] eqn:Ed; simpl.
           ++ shape. now constructor.
           ++ shape. right. now constructor.
        -- shape.
           left. split; [reflexivity |]. left. now apply failing_vendor with st.
      * shape. right. now constructor.
    + destruct (is_ClientError e) eqn:Ec.
      * apply is_ClientError_true in Ec. subst e.
        shape.
        left. split; [reflexivity |]. right. now exists status.
      * shape. right. now constructor.
  - destruct (is_ClientError e) eqn:Ec.
    + apply is_ClientError_true in Ec. subst e.
      shape.
      left. split; [reflexivity |]. left. constructor.
    + shape. right. now constructor.
Qed.

Lemma send_request_escaping endpoint method data env (s : St) w e :
  escaping (http env (n_http w)) e ->
  exists logs,
    _send_request_async self endpoint method data env s w
      = (s, after_requests w 1 logs, Raise e)
    /\ sleeps logs = []
    /\ length (requests logs) = 1%nat.
Proof.
  intros X.
  unfold _send_request_async, after_requests; unfold_m; simpl.
  inversion X as [e0 Hc Ho He | status e0 Hs Hc Ho He | status v Hs Hv Ho He
                  | status kvs Hs Hst Ho He | status kvs Hs Hst Hd Ho He]; subst; simpl.
  - rewrite Hc. eexists; trace_norm; repeat split; reflexivity.
  - assert ((400 <=? status) = false) as -> by (apply Z.leb_gt; lia); simpl.
    rewrite Hc. eexists; trace_norm; repeat split; reflexivity.
  - assert ((400 <=? status) = false) as -> by (apply Z.leb_gt; lia); simpl.
    destruct v; try (exfalso; eapply Hv; reflexivity); simpl;
      eexists; trace_norm; repeat split; reflexivity.
  - assert ((400 <=? status) = false) as -> by (apply Z.leb_gt; lia); simpl.
    rewrite Hst; simpl. eexists; trace_norm; repeat split; reflexivity.
  - assert ((400 <=? status) = false) as -> by (apply Z.leb_gt; lia); simpl.
    rewrite Hst; simpl. rewrite Hd; simpl. eexists; trace_norm; repeat split; reflexivity.
Qed.

(** X4. The retry only answers [FellerApiException]. A timeout that is no
    [ClientError], a body that is no JSON object, an envelope without
    [status] or without [data]: the read that meets one of these raises it
    after a single request, without sleeping, however many attempts it was
    given. *)
Theorem unwrapped_exceptions_are_not_retried n endpoint method data env (s : St) w e :
  0 < n ->
  escaping (http env (n_http w)) e ->
  is_FellerApiException e = false ->
  exists logs,
    _send_request_with_retry_async self endpoint n method data env s w
      = (s, after_requests w 1 logs, Raise e)
    /\ sleeps logs = []
    /\ length (requests logs) = 1%nat.
Proof.
  intros Hn X Hf. unfold _send_request_with_retry_async.
  destruct (Z.to_nat n) as [| left] eqn:En; [lia |]. cbn [retry_loop].
  destruct (send_request_escaping endpoint method data env s w e X) as (logs & E & Hs & Hr).
  exists logs. unfold try_except. rewrite E, Hf. auto.
Qed.

End WithState.

Import Scenario.

(** X1 at work: two failures and then a success, with three attempts allowed:
    three requests, sleeps of 1 and 2 seconds. *)
Lemma retry_succeeds_after_failures_witness :
  exists logs,
    _send_request_with_retry_async client "hvacgroups/3" 3 "GET" VNone
      (http_only (fail_times 2 load_state)) tt initial
      = (tt, after_requests initial 3 logs, Ok (mkResult 200 load_state))
    /\ length (requests logs) = 3%nat
    /\ length (sleeps logs) = 2%nat
    /\ (forall j, (j < 2)%nat -> nth j (sleeps logs) 0 = Z.of_nat j + 1)
    /\ 2 * fold_right Z.add 0 (sleeps logs) = Z.of_nat 2 * (Z.of_nat 2 + 1).
Proof.
  apply (retry_succeeds_after_failures client 3 2 "hvacgroups/3" "GET" VNone
           (http_only (fail_times 2 load_state)) tt initial).
  - simpl. lia.
  - intros j Hj. simpl. now apply ClientFacts.fail_times_failing.
  - apply (ClientFacts.fail_times_succeeding 2).
Defined.

(** X2 at work: two attempts allowed and a vendor that always answers 500: two
    requests, sleeps of 1 and 2 seconds, then the exception. *)
Lemma retry_gives_up_witness :
  exists logs,
    _send_request_with_retry_async client "loads/7" 2 "GET" VNone
      (http_only always_500) tt initial
      = (tt, after_requests initial (Z.to_nat 2) logs, Raise FellerApiException)
    /\ length (requests logs) = Z.to_nat 2
    /\ length (sleeps logs) = Z.to_nat 2
    /\ (forall j, (j < Z.to_nat 2)%nat -> nth j (sleeps logs) 0 = Z.of_nat j + 1)
    /\ 2 * fold_right Z.add 0 (sleeps logs) = Z.max 2 0 * (Z.max 2 0 + 1)
    /\ (2 <= 0 -> logs = []).
Proof.
  apply (retry_gives_up client 2 "loads/7" "GET" VNone (http_only always_500) tt initial).
  intros j Hj. simpl. apply failing_status. lia.
Defined.

(** X4 at work: a read of load 7 with five attempts allowed meets a timeout,
    or an envelope without [status]: one request, no sleep, the exception as
    it came. *)
Lemma unwrapped_exceptions_are_not_retried_witness :
  (exists logs,
      _send_request_with_retry_async client "loads/7" 5 "GET" VNone
        (http_only timing_out) tt initial
        = (tt, after_requests initial 1 logs, Raise TimeoutError)
      /\ sleeps logs = []
      /\ length (requests logs) = 1%nat)
  /\ (exists logs,
      _send_request_with_retry_async client "loads/7" 5 "GET" VNone
        (http_only no_status) tt initial
        = (tt, after_requests initial 1 logs, Raise (KeyError "status"))
      /\ sleeps logs = []
      /\ length (requests logs) = 1%nat).
Proof.
  split.
  - apply (unwrapped_exceptions_are_not_retried client 5 "loads/7" "GET" VNone
             (http_only timing_out) tt initial TimeoutError);
      [lia | now apply escaping_transport | reflexivity].
  - apply (unwrapped_exceptions_are_not_retried client 5 "loads/7" "GET" VNone
             (http_only no_status) tt initial (KeyError "status"));
      [lia | apply escaping_no_status; [lia | reflexivity] | reflexivity].
Defined.

End ClientMore.

(* ===================================================================== *)
(** ** Further properties of the device handles                           *)
(* ===================================================================== *)

Module LightMore.
Import feller_client light Spec.

Ltac mcbv :=
  cbv [bind lift ret raise try_except log sleep emit get put modify contains getitem negb];
  cbv beta iota.

(** X5. A load event whose state says [fading] is 1 is dropped whole: no field
    changes, nothing is logged, the host is not notified, whatever the event
    says about the brightness. *)
Theorem fading_events_are_skipped kvs load_kvs state_kvs flags f env (l : FellerLight) w :
  assoc "load" kvs = Some (VDict load_kvs) ->
  assoc "state" load_kvs = Some (VDict state_kvs) ->
  assoc "flags" state_kvs = Some (VDict flags) ->
  assoc "fading" flags = Some f ->
  eq_int f 1 = true ->
  update_from_websocket_message (VDict kvs) env l w = (l, w, Ok tt).
Proof.
  intros Hl Hs Hfl Hf H1.
  unfold update_from_websocket_message, is_fading. mcbv.
  rewrite Hl. cbv beta iota. rewrite Hs. cbv beta iota.
  rewrite Hfl. cbv beta iota. rewrite Hf. cbv beta iota. now rewrite H1.
Qed.

(** X5 at work: a fading event with brightness 5000 leaves light 42 as it was. *)
Lemma fading_events_are_skipped_witness :
  update_from_websocket_message
    (load_event 42 [("bri", VInt 5000); ("flags", VDict [("fading", VInt 1)])])
    Scenario.idle Scenario.light42 initial
  = (Scenario.light42, initial, Ok tt).
Proof.
  exact (fading_events_are_skipped
           [("load", VDict [("id", VInt 42);
                            ("state", VDict [("bri", VInt 5000);
                                             ("flags", VDict [("fading", VInt 1)])])])]
           [("id", VInt 42);
            ("state", VDict [("bri", VInt 5000); ("flags", VDict [("fading", VInt 1)])])]
           [("bri", VInt 5000); ("flags", VDict [("fading", VInt 1)])]
           [("fading", VInt 1)] (VInt 1)
           Scenario.idle Scenario.light42 initial
           eq_refl eq_refl eq_refl eq_refl eq_refl).
Defined.

Lemma not_fading_is_fading load_kvs state_kvs env (l : FellerLight) w :
  assoc "state" load_kvs = Some (VDict state_kvs) ->
  not_fading state_kvs ->
  is_fading (VDict load_kvs) env l w = (l, w, Ok false).
Proof.
  intros Hs. unfold is_fading. mcbv. rewrite Hs. cbv beta iota.
  intros [H | (flags & H & [H' | (f & H' & Hf)])]; rewrite H; cbv beta iota;
    try reflexivity; rewrite H'; cbv beta iota; [reflexivity | now rewrite Hf].
Qed.

(** A read that succeeds at the first attempt. *)
Lemma get_load_first_try {St} self id env (s : St) w res :
  succeeding (http env (n_http w)) res ->
  exists logs,
    get_load_async self id default_retry_count env s w = (s, after_requests w 1 logs, Ok res)
    /\ sleeps logs = [].
Proof.
  intros Hok. unfold get_load_async, _send_request_with_retry_async.
  destruct (ClientFacts.retry_loop_success self 0 (Z.to_nat default_retry_count) 0
              ("loads/" +:+ str_of_int id) "GET" VNone env s w res) as (logs & E & Hs & _).
  - unfold default_retry_count. lia.
  - intros j Hj. lia.
  - now rewrite Nat.add_0_r.
  - now exists logs.
Qed.

(** X6. The poll and the push write the same: for a state that is not fading
    and reports a vendor brightness [r >= 0], [async_update] on a response
    and [update_from_websocket_message] on an event with the same [state]
    leave the same on/off flag ([r > 0]) and the same brightness [r / 39.22]. *)
Theorem light_poll_agrees_with_push dk sk r back res env (l : FellerLight) w :
  succeeding (http env (n_http w)) res ->
  data res = VDict dk ->
  assoc "state" dk = Some (VDict sk) ->
  not_fading sk ->
  assoc "bri" sk = Some (VInt r) ->
  0 <= r ->
  div_float (VInt r) 39.22 = Ok back ->
  exists l1 l2 w1 w2,
    async_update env l w = (l1, w1, Ok tt)
    /\ update_from_websocket_message (VDict [("load", data res)]) env l w = (l2, w2, Ok tt)
    /\ _is_on l1 = Some (0 <? r) /\ _is_on l2 = Some (0 <? r)
    /\ as_float (_brightness l1) = Ok back /\ as_float (_brightness l2) = Ok back.
Proof.
  intros Hok Hd Hs Hnf Hbri Hr Hback.
  destruct (get_load_first_try (_client l) (_wiser_id l) env l w res Hok) as (logs & E & _).
  assert (Hgt : gt_int (VInt r) 0 = Ok (0 <? r)).
  { unfold gt_int, cmp_int, rbind. f_equal.
    destruct (Z.compare_spec r 0) as [H | H | H]; destruct (Z.ltb_spec 0 r);
      first [reflexivity | exfalso; lia]. }
  assert (Hzero : r = 0 -> back = 0%float).
  { intros ->. vm_compute in Hback. now injection Hback as <-. }
  exists (set_brightness (VFloat back) (set_is_on (0 <? r) l)).
  exists (if r =? 0 then set_brightness (VInt 0) (set_is_on false l)
          else set_is_on true (set_brightness (VFloat back) l)).
  eexists _, _. split; [| split].
  - unfold async_update. unfold bind at 1, get at 1. unfold bind at 1. rewrite E.
    rewrite Hd. mcbv. rewrite Hs. cbv beta iota. rewrite Hbri. cbv beta iota.
    rewrite Hgt. cbv beta iota. rewrite Hback.
    destruct (0 <? r); reflexivity.
  - unfold update_from_websocket_message. rewrite Hd.
    unfold bind at 1, get at 1. unfold bind at 1, lift at 1, contains at 1.
    cbn [assoc String.eqb Ascii.eqb Bool.eqb negb].
    unfold bind at 1, lift at 1, getitem at 1.
    cbn [assoc String.eqb Ascii.eqb Bool.eqb negb].
    unfold bind at 1, lift at 1, contains at 1. rewrite Hs. cbn [negb].
    unfold bind at 1. rewrite (not_fading_is_fading dk sk env l w Hs Hnf).
    mcbv. rewrite Hs. cbv beta iota. rewrite Hbri. cbv beta iota.
    unfold eq_int.
    destruct (Z.eqb_spec r 0) as [-> | Hne].
    + reflexivity.
    + rewrite Hback. reflexivity.
  - cbn. destruct (Z.eqb_spec r 0) as [-> | Hne].
    + rewrite (Hzero eq_refl). repeat split; vm_compute; reflexivity.
    + assert ((0 <? r) = true) as -> by (apply Z.ltb_lt; lia).
      repeat split; reflexivity.
Qed.

(** X6 at work: a state with brightness 980 read by poll and by push. *)
Lemma light_poll_agrees_with_push_witness :
  exists back l1 l2 w1 w2,
    div_float (VInt 980) 39.22 = Ok back
    /\ async_update (Scenario.http_only (Scenario.answering Scenario.load_state))
         Scenario.light42 initial = (l1, w1, Ok tt)
    /\ update_from_websocket_message (VDict [("load", Scenario.load_state)])
         (Scenario.http_only (Scenario.answering Scenario.load_state))
         Scenario.light42 initial = (l2, w2, Ok tt)
    /\ _is_on l1 = Some true /\ _is_on l2 = Some true
    /\ as_float (_brightness l1) = Ok back /\ as_float (_brightness l2) = Ok back.
Proof.
  assert (exists back, div_float (VInt 980) 39.22 = Ok back) as (back & Hb)
    by (eexists; vm_compute; reflexivity).
  exists back.
  destruct (light_poll_agrees_with_push
              [("id", VInt 7); ("state", VDict [("bri", VInt 980)])]
              [("bri", VInt 980)] 980 back (mkResult 200 Scenario.load_state)
              (Scenario.http_only (Scenario.answering Scenario.load_state))
              Scenario.light42 initial
              (ClientFacts.fail_times_succeeding 0 Scenario.load_state)
              eq_refl eq_refl (or_introl eq_refl) eq_refl
              (proj1 (Z.leb_le 0 980) eq_refl) Hb)
    as (l1 & l2 & w1 & w2 & H).
  exists l1, l2, w1, w2. split; [exact Hb | exact H].
Defined.

(** X7. Switching off is a click followed by a refresh. When the click fails
    nothing is written. When the click is accepted and the five attempts of
    the refresh all fail, the light is marked off and keeps the brightness it
    had: the exception leaves the handle between two states. *)
Theorem turn_off_writes_after_the_click env (l : FellerLight) w :
  (failing (http env (n_http w)) ->
     exists logs,
       async_turn_off env l w = (l, after_requests w 1 logs, Raise FellerApiException))
  /\ (forall res,
        succeeding (http env (n_http w)) res ->
        (forall j, (j < 5)%nat -> failing (http env (n_http w + S j))) ->
        exists logs,
          async_turn_off env l w
            = (set_is_on false l, after_requests w 6 logs, Raise FellerApiException)
          /\ _brightness (set_is_on false l) = _brightness l
          /\ length (requests logs) = 6%nat).
Proof.
  unfold async_turn_off, send_load_ctrl_event_async. split.
  - intros F. unfold bind at 1, get at 1. unfold bind at 1.
    destruct (ClientFacts.send_request_failing (_client l)
                ("loads/" +:+ str_of_int (_wiser_id l) +:+ "/ctrl") "PUT"
                (VDict [("button", VStr "off"); ("event", VStr "click")]) env l w F)
      as (logs & E & _).
    rewrite E. now exists logs.
  - intros res Hok Hfail. unfold bind at 1, get at 1. unfold bind at 1.
    destruct (ClientFacts.send_request_succeeding (_client l)
                ("loads/" +:+ str_of_int (_wiser_id l) +:+ "/ctrl") "PUT"
                (VDict [("button", VStr "off"); ("event", VStr "click")]) env l w res Hok)
      as (logs & E & _ & Hq).
    rewrite E. unfold bind at 1, modify at 1. unfold bind at 1.
    unfold get_load_async, _send_request_with_retry_async.
    destruct (ClientFacts.retry_loop_exhausted (_client l) (Z.to_nat default_retry_count) 0
                ("loads/" +:+ str_of_int (_wiser_id l)) "GET" VNone env
                (set_is_on false l) (after_requests w 1 logs))
      as (logs' & E' & _ & Hq').
    { intros j Hj. simpl in *. unfold default_retry_count in Hj.
      replace (S (n_http w + j)) with (n_http w + S j)%nat by lia.
      apply Hfail. lia. }
    rewrite E'. exists (logs ++ logs').
    rewrite ClientFacts.after_requests_twice.
    split; [reflexivity | split; [reflexivity |]].
    rewrite ClientFacts.requests_app, length_app, Hq, Hq'. reflexivity.
Qed.

(** X7 at work: a vendor that refuses the click, and one that accepts it and
    then fails every read. *)
Lemma turn_off_writes_after_the_click_witness :
  (exists logs,
      async_turn_off (Scenario.http_only Scenario.always_500) Scenario.light42 initial
      = (Scenario.light42, after_requests initial 1 logs, Raise FellerApiException))
  /\ (exists logs,
      async_turn_off (Scenario.http_only (fun n => match n with
                                                   | O => Scenario.answering (VDict []) O
                                                   | _ => Scenario.always_500 n
                                                   end))
        Scenario.light42 initial
      = (set_is_on false Scenario.light42, after_requests initial 6 logs,
         Raise FellerApiException)
      /\ _brightness (set_is_on false Scenario.light42) = _brightness Scenario.light42
      /\ length (requests logs) = 6%nat).
Proof.
  split.
  - apply (proj1 (turn_off_writes_after_the_click
                    (Scenario.http_only Scenario.always_500) Scenario.light42 initial)).
    simpl. apply failing_status. lia.
  - apply (proj2 (turn_off_writes_after_the_click
                    (Scenario.http_only (fun n => match n with
                                                  | O => Scenario.answering (VDict []) O
                                                  | _ => Scenario.always_500 n
                                                  end))
                    Scenario.light42 initial) (mkResult 200 (VDict []))).
    + apply (ClientFacts.fail_times_succeeding 0).
    + intros j Hj. simpl. apply failing_status. lia.
Defined.

End LightMore.

Module CoverMore.
Import feller_client cover Spec.

Ltac mcbv :=
  cbv [bind lift ret raise try_except log sleep emit get put modify contains getitem negb];
  cbv beta iota.

Ltac mcbv_keep :=
  cbv [bind lift ret raise try_except log sleep emit get put modify negb];
  cbv beta iota.

(** X8. Whatever the message and whatever the outcome, a push update never
    leaves a cover both opening and closing. When it returns normally it has
    either left the cover as it was (the event was skipped) or stored a float
    position and set exactly one of opened, closed and partially opened,
    opened for a position of at least 100 and closed for one of at most 0. *)
Theorem cover_push_keeps_flags_consistent message env (c : FellerCover) w :
  match update_from_websocket_message message env c w with
  | (c', w', r) =>
      (_is_opening c && _is_closing c = false -> _is_opening c' && _is_closing c' = false)
      /\ (r = Ok tt ->
          c' = c
          \/ (exists p, _position c' = VFloat p)
             /\ exactly_one (_is_opened c') (_is_closed c') (_is_partially_opened c')
             /\ ge_int (_position c') 100 = Ok (_is_opened c')
             /\ (_is_opened c' = false -> le_int (_position c') 0 = Ok (_is_closed c')))
  end.
Proof.
  unfold update_from_websocket_message, store_position. mcbv_keep.
  destruct (contains "load" message) as [[] |]; cbv beta iota;
    [| split; [auto | now left] | split; [auto | discriminate]].
  destruct (getitem message "load") as [load |]; cbv beta iota;
    [| split; [auto | discriminate]].
  destruct (contains "state" load) as [[] |]; cbv beta iota;
    [| split; [auto | now left] | split; [auto | discriminate]].
  destruct (getitem load "state") as [st |]; cbv beta iota;
    [| split; [auto | discriminate]].
  destruct (getitem st "level") as [level |]; cbv beta iota;
    [| split; [auto | discriminate]].
  destruct (getitem st "moving") as [moving |]; cbv beta iota;
    [| split; [auto | discriminate]].
  destruct (div_int level 100) as [q |]; cbv beta iota;
    [| split; [auto | discriminate]].
  rewrite CoverFacts.int_sub_100. cbv beta iota.
  destruct (is_str "stop" moving), (is_str "up" moving), (is_str "down" moving);
    cbv beta iota; cbn [_position set_moving set_position];
    (destruct (ge_int (VFloat (100 - q)) 100) as [[] |] eqn:Ege; cbv beta iota;
     [| destruct (le_int (VFloat (100 - q)) 0) as [[] |] eqn:Ele; cbv beta iota |]);
    cbn [_is_opening _is_closing _is_opened _is_closed _is_partially_opened _position
         set_open_flags set_moving set_position];
    (split; [intros H; first [reflexivity | exact H] |]);
    first [discriminate
          | intros _; right; split; [eexists; reflexivity |];
            unfold exactly_one; rewrite ?Ege, ?Ele; intuition congruence ].
Qed.

Lemma positions_checked :
  forallb position_checked (map Z.of_nat (seq 0 (Z.to_nat 101))) = true.
Proof. vm_compute. reflexivity. Qed.

Lemma position_facts p :
  0 <= p <= 100 ->
  exists q, div_int (VInt ((100 - p) * 100)) 100 = Ok q
            /\ eq_int (VFloat (100 - q)) p = true.
Proof.
  intros Hp.
  assert (H : position_checked p = true).
  { pose proof positions_checked as C. rewrite forallb_forall in C. apply C.
    apply in_map_iff. exists (Z.to_nat p). split; [lia |]. apply in_seq. lia. }
  unfold position_checked in H.
  destruct (div_int (VInt ((100 - p) * 100)) 100) as [q |] eqn:Eq; [| discriminate].
  now exists q.
Qed.

Section Position.
Variable ATTR_POSITION : string.

(** X9. Setting a position [p] between 0 and 100 sends the vendor level
    [(100 - p) * 100]; when the vendor accepts and echoes that level as its
    target, the handle ends with a position equal to [p]. *)
Theorem set_position_round_trip kwargs p res dk tk env (c : FellerCover) w :
  0 <= p <= 100 ->
  assoc ATTR_POSITION kwargs = Some (VInt p) ->
  succeeding (http env (n_http w)) res ->
  data res = VDict dk ->
  assoc "target_state" dk = Some (VDict tk) ->
  assoc "level" tk = Some (VInt ((100 - p) * 100)) ->
  exists logs c' x,
    async_set_cover_position ATTR_POSITION kwargs env c w
      = (c', after_requests w 1 logs, Ok tt)
    /\ requests logs =
         [HttpRequest "PUT"
            (url_of (_client c) ("loads/" +:+ str_of_int (_wiser_id c) +:+ "/target_state"))
            (VDict [("level", VInt ((100 - p) * 100))])]
    /\ _position c' = VFloat x
    /\ eq_int (VFloat x) p = true
    /\ _state c' = Some true.
Proof.
  intros Hp Hk Hok Hd Hts Hl.
  destruct (position_facts p Hp) as (q & Hq & Heq).
  unfold async_set_cover_position, set_cover_level_async, store_target, store_position.
  unfold dict_get. rewrite Hk.
  unfold bind at 1, modify at 1. unfold bind at 1, get at 1.
  cbn [_position _client _wiser_id set_position int_sub mul_int].
  unfold bind at 1, lift at 1. unfold bind at 1, lift at 1. unfold bind at 1.
  cbn [mul_int]. cbv beta iota.
  set (endpoint := "loads/" +:+ str_of_int (_wiser_id c) +:+ "/target_state").
  set (body := VDict [("level", VInt ((100 - p) * 100))]).
  destruct (ClientFacts.send_request_shape (_client c) endpoint "PUT" body env
              (set_position (VInt p) c) w) as (logs & r & E & _ & Hreq).
  destruct (ClientFacts.send_request_succeeding (_client c) endpoint "PUT" body env
              (set_position (VInt p) c) w res Hok) as (logs' & E' & _).
  assert (r = Ok res) as -> by congruence. rewrite E.
  rewrite Hd. mcbv. rewrite Hts. cbv beta iota. rewrite Hl. cbv beta iota.
  rewrite Hq. cbv beta iota. rewrite CoverFacts.int_to_float_100. cbn [rbind].
  eexists logs, _, _. split; [reflexivity |].
  split; [exact Hreq | split; [reflexivity | split; [exact Heq | reflexivity]]].
Qed.

End Position.

(** X9 at work: position 30 is sent as level 7000 and read back as 30. *)
Lemma set_position_round_trip_witness :
  exists logs c' x,
    async_set_cover_position Scenario.ATTR_POSITION [(Scenario.ATTR_POSITION, VInt 30)]
      (Scenario.http_only
         (Scenario.answering (VDict [("target_state", VDict [("level", VInt 7000)])])))
      Scenario.cover7 initial
      = (c', after_requests initial 1 logs, Ok tt)
    /\ requests logs =
         [HttpRequest "PUT"
            (url_of (_client Scenario.cover7)
               ("loads/" +:+ str_of_int (_wiser_id Scenario.cover7) +:+ "/target_state"))
            (VDict [("level", VInt ((100 - 30) * 100))])]
    /\ _position c' = VFloat x
    /\ eq_int (VFloat x) 30 = true
    /\ _state c' = Some true.
Proof.
  exact (set_position_round_trip Scenario.ATTR_POSITION [(Scenario.ATTR_POSITION, VInt 30)] 30
           (mkResult 200 (VDict [("target_state", VDict [("level", VInt 7000)])]))
           [("target_state", VDict [("level", VInt 7000)])] [("level", VInt 7000)]
           (Scenario.http_only
              (Scenario.answering (VDict [("target_state", VDict [("level", VInt 7000)])])))
           Scenario.cover7 initial
           (conj (proj1 (Z.leb_le 0 30) eq_refl) (proj1 (Z.leb_le 30 100) eq_refl))
           eq_refl
           (ClientFacts.fail_times_succeeding 0 _)
           eq_refl eq_refl eq_refl).
Defined.

(** X10. The poll and the push write the same: for a response whose [state] has
    a [level] and a [moving] field, [async_update] leaves the cover in the
    state, and ends with the outcome, of [update_from_websocket_message] on an
    event with that [state]. *)
Theorem cover_poll_agrees_with_push dk sk lv mv res env (c : FellerCover) w :
  succeeding (http env (n_http w)) res ->
  data res = VDict dk ->
  assoc "state" dk = Some (VDict sk) ->
  assoc "level" sk = Some lv ->
  assoc "moving" sk = Some mv ->
  exists c' r w1 w2,
    async_update env c w = (c', w1, r)
    /\ update_from_websocket_message (VDict [("load", data res)]) env c w = (c', w2, r).
Proof.
  intros Hok Hd Hs Hlv Hmv.
  destruct (LightMore.get_load_first_try (_client c) (_wiser_id c) env c w res Hok)
    as (logs & E & _).
  unfold async_update. unfold bind at 1, get at 1. unfold bind at 1. rewrite E.
  unfold update_from_websocket_message, store_position. rewrite Hd. mcbv.
  cbn [assoc String.eqb Ascii.eqb Bool.eqb]. cbv beta iota.
  rewrite Hs. cbv beta iota. rewrite Hlv, Hmv. cbv beta iota.
  destruct (div_int lv 100) as [q |]; cbv beta iota;
    [| eexists _, _, _, _; split; reflexivity].
  rewrite CoverFacts.int_sub_100. cbv beta iota.
  destruct (is_str "stop" mv), (is_str "up" mv), (is_str "down" mv); cbv beta iota;
    cbn [_position set_moving set_position];
    (destruct (ge_int (VFloat (100 - q)) 100) as [[] |]; cbv beta iota;
     [| destruct (le_int (VFloat (100 - q)) 0) as [[] |]; cbv beta iota |]);
    eexists _, _, _, _; split; reflexivity.
Qed.

(** X10 at work: level 2500 moving down, read by poll and by push. *)
Lemma cover_poll_agrees_with_push_witness :
  exists c' r w1 w2,
    async_update
      (Scenario.http_only
         (Scenario.answering
            (VDict [("state", VDict [("level", VInt 2500); ("moving", VStr "down")])])))
      Scenario.cover7 initial = (c', w1, r)
    /\ update_from_websocket_message
         (VDict [("load",
                  data (mkResult 200
                          (VDict [("state",
                                   VDict [("level", VInt 2500); ("moving", VStr "down")])])))])
         (Scenario.http_only
            (Scenario.answering
               (VDict [("state", VDict [("level", VInt 2500); ("moving", VStr "down")])])))
         Scenario.cover7 initial = (c', w2, r).
Proof.
  exact (cover_poll_agrees_with_push
           [("state", VDict [("level", VInt 2500); ("moving", VStr "down")])]
           [("level", VInt 2500); ("moving", VStr "down")] (VInt 2500) (VStr "down")
           (mkResult 200
              (VDict [("state", VDict [("level", VInt 2500); ("moving", VStr "down")])]))
           (Scenario.http_only
              (Scenario.answering
                 (VDict [("state", VDict [("level", VInt 2500); ("moving", VStr "down")])])))
           Scenario.cover7 initial
           (ClientFacts.fail_times_succeeding 0 _) eq_refl eq_refl eq_refl eq_refl).
Defined.

(** X11. Stopping sends one click on the stop button and writes nothing: the
    handle keeps its position and its opening and closing flags whether the
    vendor accepts the click or not. *)
Theorem stop_writes_nothing env (c : FellerCover) w :
  exists logs r,
    async_stop_cover env c w = (c, after_requests w 1 logs, r)
    /\ requests logs =
         [HttpRequest "PUT"
            (url_of (_client c) ("loads/" +:+ str_of_int (_wiser_id c) +:+ "/ctrl"))
            (VDict [("button", VStr "stop"); ("event", VStr "click")])]
    /\ sleeps logs = [].
Proof.
  unfold async_stop_cover, send_load_ctrl_event_async.
  unfold bind at 1, get at 1. unfold bind at 1.
  destruct (ClientFacts.send_request_shape (_client c)
              ("loads/" +:+ str_of_int (_wiser_id c) +:+ "/ctrl") "PUT"
              (VDict [("button", VStr "stop"); ("event", VStr "click")]) env c w)
    as (logs & r & E & Hs & Hq).
  rewrite E. destruct r as [res | e]; eexists logs, _; (split; [reflexivity | now split]).
Qed.

End CoverMore.

Module ClimateMore.
Import feller_client climate Spec.

Ltac mcbv_keep :=
  cbv [bind lift ret raise try_except log sleep emit get put modify negb];
  cbv beta iota.

(** What [_update_from_state] writes and how it ends does not depend on the
    world, which it leaves alone. *)
Lemma update_from_state_pure st env (g : FellerHvacGroup) :
  exists g' r,
    (forall w, _update_from_state st env g w = (g', w, r))
    /\ _min_temp g' = _min_temp g
    /\ _max_temp g' = _max_temp g.
Proof.
  unfold _update_from_state. mcbv_keep.
  destruct (getitem st "ambient_temperature"); cbv beta iota;
    [| eexists _, _; (split; [intros; reflexivity | split; reflexivity])].
  destruct (getitem st "target_temperature"); cbv beta iota;
    [| eexists _, _; (split; [intros; reflexivity | split; reflexivity])].
  destruct (getitem st "on") as [on |]; cbv beta iota;
    [| eexists _, _; (split; [intros; reflexivity | split; reflexivity])].
  destruct (truthy on); cbv beta iota;
    (destruct (getitem st "heating_cooling_level") as [lv |]; cbv beta iota;
     [| eexists _, _; (split; [intros; reflexivity | split; reflexivity])]);
    (destruct (gt_int lv 0) as [[] |]; cbv beta iota;
     (eexists _, _; split; [intros; reflexivity | split; reflexivity])).
Qed.

Lemma get_hvac_group_first_try {St} self id env (s : St) w res :
  succeeding (http env (n_http w)) res ->
  exists logs,
    get_hvac_group_async self id default_retry_count env s w
      = (s, after_requests w 1 logs, Ok res).
Proof.
  intros Hok. unfold get_hvac_group_async, _send_request_with_retry_async.
  destruct (ClientFacts.retry_loop_success self 0 (Z.to_nat default_retry_count) 0
              ("hvacgroups/" +:+ str_of_int id) "GET" VNone env s w res) as (logs & E & _).
  - unfold default_retry_count. lia.
  - intros j Hj. lia.
  - now rewrite Nat.add_0_r.
  - now exists logs.
Qed.

(** X12. The poll and the push write the same: for a response with [state],
    [min_temperature] and [max_temperature], [async_update] ends as
    [update_from_websocket_message] does on an event with that [state], with
    the same temperatures, mode and action, partial writes included; on
    success it has the two bounds from the response as well, which the push
    leaves as they were. *)
Theorem hvac_poll_agrees_with_push dk st lo hi res env (g : FellerHvacGroup) w :
  succeeding (http env (n_http w)) res ->
  data res = VDict dk ->
  assoc "state" dk = Some st ->
  assoc "min_temperature" dk = Some lo ->
  assoc "max_temperature" dk = Some hi ->
  exists g1 g2 w1 w2 r,
    async_update env g w = (g1, w1, r)
    /\ update_from_websocket_message (VDict [("hvacgroup", data res)]) env g w = (g2, w2, r)
    /\ _current_temperature g1 = _current_temperature g2
    /\ _target_temperature g1 = _target_temperature g2
    /\ _hvac_mode g1 = _hvac_mode g2
    /\ _hvac_action g1 = _hvac_action g2
    /\ _min_temp g2 = _min_temp g /\ _max_temp g2 = _max_temp g
    /\ (r = Ok tt -> _min_temp g1 = lo /\ _max_temp g1 = hi).
Proof.
  intros Hok Hd Hs Hlo Hhi.
  destruct (get_hvac_group_first_try (_client g) (_wiser_id g) env g w res Hok) as (logs & E).
  destruct (update_from_state_pure st env g) as (g' & r & Hu & Hmin & Hmax).
  unfold async_update, update_from_websocket_message.
  unfold bind at 1, get at 1. unfold bind at 1. rewrite E. rewrite Hd.
  cbv [bind lift get contains getitem negb]. cbv beta iota.
  cbn [assoc String.eqb Ascii.eqb Bool.eqb]. cbv beta iota.
  rewrite Hs. cbv beta iota. rewrite !Hu.
  destruct r as [[] | e]; cbv beta iota.
  - rewrite Hlo, Hhi. cbv [modify emit]. cbv beta iota.
    eexists _, _, _, _, _. split; [reflexivity | split; [reflexivity |]].
    cbn. intuition (try discriminate; auto).
  - eexists _, _, _, _, _. split; [reflexivity | split; [reflexivity |]].
    intuition (try discriminate; auto).
Qed.

(** X12 at work: a state with the ambient temperature only: both paths end in
    the same [KeyError] with the same partial write. *)
Lemma hvac_poll_agrees_with_push_witness :
  exists g1 g2 w1 w2 r,
    async_update
      (Scenario.http_only
         (Scenario.answering
            (VDict [("state", VDict [("ambient_temperature", VFloat 19)]);
                    ("min_temperature", VInt 10); ("max_temperature", VInt 30)])))
      Scenario.group3_heating initial = (g1, w1, r)
    /\ update_from_websocket_message
         (VDict [("hvacgroup",
                  data (mkResult 200
                          (VDict [("state", VDict [("ambient_temperature", VFloat 19)]);
                                  ("min_temperature", VInt 10);
                                  ("max_temperature", VInt 30)])))])
         (Scenario.http_only
            (Scenario.answering
               (VDict [("state", VDict [("ambient_temperature", VFloat 19)]);
                       ("min_temperature", VInt 10); ("max_temperature", VInt 30)])))
         Scenario.group3_heating initial = (g2, w2, r)
    /\ _current_temperature g1 = _current_temperature g2
    /\ _target_temperature g1 = _target_temperature g2
    /\ _hvac_mode g1 = _hvac_mode g2
    /\ _hvac_action g1 = _hvac_action g2
    /\ _min_temp g2 = _min_temp Scenario.group3_heating
    /\ _max_temp g2 = _max_temp Scenario.group3_heating
    /\ (r = Ok tt -> _min_temp g1 = VInt 10 /\ _max_temp g1 = VInt 30).
Proof.
  exact (hvac_poll_agrees_with_push
           [("state", VDict [("ambient_temperature", VFloat 19)]);
            ("min_temperature", VInt 10); ("max_temperature", VInt 30)]
           (VDict [("ambient_temperature", VFloat 19)]) (VInt 10) (VInt 30)
           (mkResult 200
              (VDict [("state", VDict [("ambient_temperature", VFloat 19)]);
                      ("min_temperature", VInt 10); ("max_temperature", VInt 30)]))
           (Scenario.http_only
              (Scenario.answering
                 (VDict [("state", VDict [("ambient_temperature", VFloat 19)]);
                         ("min_temperature", VInt 10); ("max_temperature", VInt 30)])))
           Scenario.group3_heating initial
           (ClientFacts.fail_times_succeeding 0 _) eq_refl eq_refl eq_refl eq_refl).
Defined.

(** X13. The commands of an HVAC group write after the vendor has accepted, never
    before. Setting the temperature writes no field at all. Asking for the
    mode the group is in sends nothing; asking for a mode the group does not
    offer logs an error and sends nothing; asking for the other mode changes
    the mode when the request succeeds and leaves the group as it was when it
    fails. *)
Theorem hvac_commands_write_after_success env (g : FellerHvacGroup) w :
  (forall kwargs, exists logs r,
      async_set_temperature kwargs env g w = (g, after_requests w 1 logs, r)
      /\ requests logs
         = [HttpRequest "PUT"
              (url_of (_client g)
                 ("hvacgroups/" +:+ str_of_int (_wiser_id g) +:+ "/target_state"))
              (VDict [("target_temperature", dict_get kwargs "temperature" VNone)])])
  /\ (forall m, _hvac_mode g = Some m ->
                async_set_hvac_mode (Offered m) env g w = (g, w, Ok tt))
  /\ (forall name,
        async_set_hvac_mode (Other name) env g w
        = (g, logged w [Log "error" "Unknown hvac mode %s"], Ok tt))
  /\ (forall m, _hvac_mode g <> Some m -> failing (http env (n_http w)) ->
        exists logs,
          async_set_hvac_mode (Offered m) env g w
          = (g, after_requests w 1 logs, Raise FellerApiException))
  /\ (forall m res, _hvac_mode g <> Some m -> succeeding (http env (n_http w)) res ->
        exists logs,
          async_set_hvac_mode (Offered m) env g w
          = (set_hvac_mode m g, after_requests w 1 logs, Ok tt)
          /\ In (WriteState (_id g)) logs).
Proof.
  split; [| split; [| split; [| split]]].
  - intros kwargs. unfold async_set_temperature, set_hvac_group_temperature_async.
    unfold bind at 1, get at 1. unfold bind at 1.
    destruct (ClientFacts.send_request_shape (_client g)
                ("hvacgroups/" +:+ str_of_int (_wiser_id g) +:+ "/target_state") "PUT"
                (VDict [("target_temperature", dict_get kwargs "temperature" VNone)])
                env g w) as (logs & r & E & _ & Hq).
    rewrite E. destruct r as [res | e].
    + exists (logs ++ [WriteState (_id g)]), (Ok tt). split.
      * unfold emit, after_requests. simpl. now rewrite app_assoc.
      * rewrite ClientFacts.requests_app. simpl. rewrite app_nil_r. exact Hq.
    + exists logs, (Raise e). now split.
  - intros m Hm. unfold async_set_hvac_mode. unfold bind, get. rewrite Hm.
    destruct m; reflexivity.
  - intros name. unfold async_set_hvac_mode, bind, get, same_mode, log, emit, logged,
      after_requests. reflexivity.
  - intros m Hm F.
    assert (Hsame : same_mode (Offered m) (_hvac_mode g) = false).
    { destruct m, (_hvac_mode g) as [[] |]; try reflexivity; exfalso; now apply Hm. }
    unfold async_set_hvac_mode. unfold bind at 1, get at 1. rewrite Hsame.
    destruct m; unfold async_turn_off, async_turn_on, set_hvac_group_state_async;
      unfold bind at 1, get at 1; unfold bind at 1;
      match goal with |- context [_send_request_async ?c ?ep ?me ?b env g w] =>
        destruct (ClientFacts.send_request_failing c ep me b env g w F) as (logs & E & _)
      end; rewrite E; now exists logs.
  - intros m res Hm Hok.
    assert (Hsame : same_mode (Offered m) (_hvac_mode g) = false).
    { destruct m, (_hvac_mode g) as [[] |]; try reflexivity; exfalso; now apply Hm. }
    unfold async_set_hvac_mode. unfold bind at 1, get at 1. rewrite Hsame.
    destruct m; unfold async_turn_off, async_turn_on, set_hvac_group_state_async;
      unfold bind at 1, get at 1; unfold bind at 1;
      match goal with |- context [_send_request_async ?c ?ep ?me ?b env g w] =>
        destruct (ClientFacts.send_request_succeeding c ep me b env g w res Hok)
          as (logs & E & _)
      end; rewrite E;
      exists (logs ++ [WriteState (_id g)]);
      (split; [unfold bind, modify, emit, after_requests; simpl; now rewrite app_assoc
              | apply in_or_app; right; now left]).
Qed.

(** X13 at work: a group that is heating is asked to heat, and asked to switch
    off with a vendor that refuses and with one that accepts. *)
Lemma hvac_commands_write_after_success_witness :
  async_set_hvac_mode (Offered HEAT) (Scenario.http_only Scenario.always_500)
    Scenario.group3_heating initial = (Scenario.group3_heating, initial, Ok tt)
  /\ (exists logs,
        async_set_hvac_mode (Offered OFF) (Scenario.http_only Scenario.always_500)
          Scenario.group3_heating initial
        = (Scenario.group3_heating, after_requests initial 1 logs, Raise FellerApiException))
  /\ (exists logs,
        async_set_hvac_mode (Offered OFF)
          (Scenario.http_only (Scenario.answering (VDict []))) Scenario.group3_heating initial
        = (set_hvac_mode OFF Scenario.group3_heating, after_requests initial 1 logs, Ok tt)
        /\ In (WriteState (_id Scenario.group3_heating)) logs).
Proof.
  split; [| split].
  - exact (proj1 (proj2 (hvac_commands_write_after_success
                           (Scenario.http_only Scenario.always_500)
                           Scenario.group3_heating initial)) HEAT eq_refl).
  - apply (proj1 (proj2 (proj2 (proj2 (hvac_commands_write_after_success
                                         (Scenario.http_only Scenario.always_500)
                                         Scenario.group3_heating initial)))) OFF).
    + discriminate.
    + simpl. apply failing_status. lia.
  - apply (proj2 (proj2 (proj2 (proj2 (hvac_commands_write_after_success
                                         (Scenario.http_only (Scenario.answering (VDict [])))
                                         Scenario.group3_heating initial)))) OFF
                 (mkResult 200 (VDict []))).
    + discriminate.
    + apply (ClientFacts.fail_times_succeeding 0).
Defined.

End ClimateMore.

(* ===================================================================== *)
(** ** Further properties of the router and of the supervisor             *)
(* ===================================================================== *)

Module MainMore.
Import main Spec.

(** *** What no message can change *)

Section Keeps.
Context {St B : Type}.
Variable f : St -> B.

Lemma keeps_ret {A} (a : A) : keeps f (ret a).
Proof. intros env s w s' w' r H. now injection H as <- _ _. Qed.

Lemma keeps_raise {A} e : keeps f (@raise St A e).
Proof. intros env s w s' w' r H. now injection H as <- _ _. Qed.

Lemma keeps_lift {A} (x : result A) : keeps f (lift x).
Proof. intros env s w s' w' r H. now injection H as <- _ _. Qed.

Lemma keeps_get : keeps f get.
Proof. intros env s w s' w' r H. now injection H as <- _ _. Qed.

Lemma keeps_emit ev : keeps f (emit ev).
Proof. intros env s w s' w' r H. now injection H as <- _ _. Qed.

Lemma keeps_next_recv : keeps f next_recv.
Proof. intros env s w s' w' r H. now injection H as <- _ _. Qed.

Lemma keeps_next_ping : keeps f next_ping.
Proof. intros env s w s' w' r H. now injection H as <- _ _. Qed.

Lemma keeps_next_connect : keeps f next_connect.
Proof. intros env s w s' w' r H. now injection H as <- _ _. Qed.

Lemma keeps_modify g : (forall s, f (g s) = f s) -> keeps f (modify g).
Proof. intros Hg env s w s' w' r H. injection H as <- _ _. apply Hg. Qed.

Lemma keeps_bind {A C} (c : M St A) (k : A -> M St C) :
  keeps f c -> (forall a, keeps f (k a)) -> keeps f (bind c k).
Proof.
  intros Hc Hk env s w s' w' r H. unfold bind in H.
  destruct (c env s w) as [[s1 w1] [a | e]] eqn:E.
  - rewrite (Hk a env s1 w1 s' w' r H). eapply Hc; eassumption.
  - injection H as <- _ _. eapply Hc; eassumption.
Qed.

Lemma keeps_try_except {A} (c : M St A) handles h :
  keeps f c -> (forall e, keeps f (h e)) -> keeps f (try_except c handles h).
Proof.
  intros Hc Hh env s w s' w' r H. unfold try_except in H.
  destruct (c env s w) as [[s1 w1] [a | e]] eqn:E.
  - injection H as <- _ _. eapply Hc; eassumption.
  - destruct (handles e).
    + rewrite (Hh e env s1 w1 s' w' r H). eapply Hc; eassumption.
    + injection H as <- _ _. eapply Hc; eassumption.
Qed.

End Keeps.

Ltac keeps_cases :=
  unfold log, sleep;
  repeat first
    [ apply keeps_ret
    | apply keeps_get
    | apply keeps_emit
    | apply keeps_raise
    | apply keeps_lift
    | apply keeps_next_recv
    | apply keeps_next_ping
    | apply keeps_next_connect
    | apply keeps_modify; intros []; reflexivity
    | apply keeps_bind; [| intros ?]
    | apply keeps_try_except; [| intros ?]
    | match goal with
      | |- keeps _ (match ?x with _ => _ end) => destruct x
      | |- keeps _ (if ?x then _ else _) => destruct x
      end ].

Lemma light_update_keeps_id message :
  keeps light._wiser_id (light.update_from_websocket_message message).
Proof. unfold light.update_from_websocket_message, light.is_fading. keeps_cases. Qed.

Lemma cover_update_keeps_id message :
  keeps cover._wiser_id (cover.update_from_websocket_message message).
Proof. unfold cover.update_from_websocket_message, cover.store_position. keeps_cases. Qed.

Lemma climate_update_keeps_id message :
  keeps climate._wiser_id (climate.update_from_websocket_message message).
Proof.
  unfold climate.update_from_websocket_message, climate._update_from_state. keeps_cases.
Qed.

(** What identifies a handle to the router: its class and its identifier. *)
Lemma update_keeps_identity message :
  keeps (fun e => (kind_of e, wiser_entity_id e)) (update_from_websocket_message message).
Proof.
  intros env h w h' w' r H. unfold update_from_websocket_message in H.
  destruct h as [l | c | g].
  - destruct (light.update_from_websocket_message message env l w) as [[l1 w1] r1] eqn:E.
    injection H as <- _ _. simpl. f_equal. eapply light_update_keeps_id; eassumption.
  - destruct (cover.update_from_websocket_message message env c w) as [[c1 w1] r1] eqn:E.
    injection H as <- _ _. simpl. f_equal. eapply cover_update_keeps_id; eassumption.
  - destruct (climate.update_from_websocket_message message env g w) as [[g1 w1] r1] eqn:E.
    injection H as <- _ _. simpl. f_equal. eapply climate_update_keeps_id; eassumption.
Qed.

Lemma at_index_keeps {St B A} (f : St -> B) i (c : M St A) :
  keeps f c -> keeps (fmap f) (at_index i c).
Proof.
  intros Hc env l w l' w' r H. unfold at_index in H.
  destruct (l !! i) as [s |] eqn:Ei.
  - destruct (c env s w) as [[s1 w1] r1] eqn:E. injection H as <- _ _.
    rewrite list_fmap_insert. rewrite (Hc env s w s1 w1 r1 E).
    apply list_insert_id. rewrite list_lookup_fmap, Ei. reflexivity.
  - now injection H as <- _ _.
Qed.

Lemma route_keeps_identity message :
  keeps (fmap (M := list) (fun e => (kind_of e, wiser_entity_id e))) (route message).
Proof.
  unfold route, _get_wiser_entity_id.
  keeps_cases; apply at_index_keeps, update_keeps_identity.
Qed.

Lemma handle_keeps_identity :
  keeps (fmap (M := list) (fun e => (kind_of e, wiser_entity_id e)))
        _handle_websocket_message.
Proof.
  unfold _handle_websocket_message.
  apply keeps_bind; [keeps_cases |].
  intros [fr | |]; [| keeps_cases ..].
  apply keeps_bind; [apply keeps_emit | intros _].
  apply keeps_bind; [apply keeps_lift | intros message].
  apply route_keeps_identity.
Qed.

Lemma step_keeps_identity host apikey t :
  keeps (fmap (M := list) (fun e => (kind_of e, wiser_entity_id e))) (step host apikey t).
Proof.
  unfold step, on_exception. destruct t.
  - keeps_cases.
  - apply keeps_try_except.
    + apply keeps_bind; [apply handle_keeps_identity | intros; apply keeps_ret].
    + intros e. keeps_cases.
  - apply keeps_ret.
Qed.

Lemma iterate_keeps_identity host apikey fuel : forall t,
  keeps (fmap (M := list) (fun e => (kind_of e, wiser_entity_id e)))
        (iterate host apikey fuel t).
Proof.
  induction fuel as [| fuel IH]; intros t; cbn [iterate].
  - apply keeps_ret.
  - apply keeps_bind; [apply step_keeps_identity | intros t'; apply IH].
Qed.

(** X14. The registry is never reshaped from the websocket. Whatever arrives and
    whatever fails, for any number of iterations of the supervisor, the
    registry has the handles it had, in the same order, each of the class and
    with the identifier it had: messages only change state fields. *)
Theorem registry_identity_is_stable host apikey fuel env (reg : registry) w :
  match establish_websocket host apikey fuel env reg w with
  | (reg', _, _) =>
      length reg' = length reg
      /\ wiser_entity_id <$> reg' = wiser_entity_id <$> reg
      /\ kind_of <$> reg' = kind_of <$> reg
  end.
Proof.
  destruct (establish_websocket host apikey fuel env reg w) as [[reg' w'] r] eqn:E.
  apply iterate_keeps_identity in E.
  assert (L : length reg' = length reg).
  { apply (f_equal length) in E. now rewrite !length_fmap in E. }
  split; [exact L | split].
  - apply (f_equal (fmap snd)) in E. rewrite <- !list_fmap_compose in E. exact E.
  - apply (f_equal (fmap fst)) in E. rewrite <- !list_fmap_compose in E. exact E.
Qed.

(** *** Identifiers shared by a load and an HVAC group *)

(** X15. The router looks at identifiers only, not at kinds. If the first handle
    with the identifier of an [hvacgroup] event is a light or a cover, the
    event goes to that handle, which drops it for want of a [load] key, and
    the whole registry is left as it was: an HVAC group with the same
    identifier further down is not updated. *)
Theorem hvacgroup_event_lost_behind_a_load (reg : registry) i h id st env w :
  reg !! i = Some h ->
  kind_of h <> IsHvacGroup ->
  wiser_entity_id h = id ->
  (forall j h2, (j < i)%nat -> reg !! j = Some h2 ->
                eq_int (VInt id) (wiser_entity_id h2) = false) ->
  exists msg,
    route (hvacgroup_event id st) env reg w = (reg, logged w [Log "debug" msg], Ok tt).
Proof.
  intros Hi Hk Hid Hfirst.
  assert (Hm : eq_int (VInt id) (wiser_entity_id h) = true)
    by (rewrite Hid; apply Z.eqb_refl).
  unfold route, bind, hvacgroup_event.
  rewrite (MainFacts.get_id_found [("hvacgroup", VDict [("id", VInt id); ("state", VDict st)])]
             [("id", VInt id); ("state", VDict st)] (VInt id) env reg w eq_refl eq_refl).
  unfold get. rewrite (MainFacts.first_match_some _ reg i h Hi Hm Hfirst).
  unfold at_index. rewrite Hi.
  destruct h as [l | c | g]; [| | now destruct Hk]; simpl;
    rewrite (list_insert_id _ _ _ Hi); eexists; reflexivity.
Qed.

(** X15 at work: a cover and an HVAC group that both have identifier 3. *)
Lemma hvacgroup_event_lost_behind_a_load_witness :
  exists msg,
    route (hvacgroup_event 3 [("ambient_temperature", VFloat 19)]) Scenario.idle
      [Cover (cover.init VNone "Blind" 3 Scenario.client); HvacGroup Scenario.group3] initial
    = ([Cover (cover.init VNone "Blind" 3 Scenario.client); HvacGroup Scenario.group3],
       logged initial [Log "debug" msg], Ok tt).
Proof.
  apply (hvacgroup_event_lost_behind_a_load
           [Cover (cover.init VNone "Blind" 3 Scenario.client); HvacGroup Scenario.group3]
           O (Cover (cover.init VNone "Blind" 3 Scenario.client)) 3
           [("ambient_temperature", VFloat 19)] Scenario.idle initial eq_refl).
  - discriminate.
  - reflexivity.
  - intros j h2 Hj. exfalso. exact (Nat.nlt_0_r j Hj).
Defined.

(** *** Cancellation and broken frames *)

Section Supervisor.
Variables host apikey : string.

(** X16. A cancellation that arrives while the task waits for a frame or for the
    handshake ends the task. One that arrives while it waits for the pong is
    caught by the bare [except] like a failed ping: the task sleeps ten
    seconds and goes on in the same session. *)
Theorem cancellation_is_swallowed_by_the_ping env session (reg : registry) w :
  (recvs env (n_recv w) = Raise CancelledError ->
     exists w', step host apikey (Connected session) env reg w
                = (reg, w', Ok (Dead CancelledError)))
  /\ (connects env (n_connect w) = Raise CancelledError ->
      exists w', step host apikey Disconnected env reg w = (reg, w', Ok (Dead CancelledError)))
  /\ (recvs env (n_recv w) = Raise ConnectionClosed ->
      pings env (n_ping w) = Raise CancelledError ->
      exists w',
        step host apikey (Connected session) env reg w = (reg, w', Ok (Connected session))
        /\ sleeps (trace w') = sleeps (trace w) ++ [10]).
Proof.
  split; [| split].
  - intros Er.
    unfold step, on_exception, _handle_websocket_message, bind, try_except, log, sleep,
      emit, next_recv, ret; simpl.
    rewrite Er. simpl. eexists. reflexivity.
  - intros Ec.
    unfold step, on_exception, bind, try_except, log, sleep, emit, next_connect, ret; simpl.
    rewrite Ec. simpl. eexists. reflexivity.
  - intros Er Ep.
    rewrite (MainFacts.step_ping_failure host apikey env session reg w
               ConnectionClosed CancelledError Er (or_intror eq_refl) Ep).
    eexists. split; [reflexivity |]. simpl.
    rewrite ClientFacts.sleeps_app. reflexivity.
Qed.

(** X17. A message that makes the handler raise costs the connection: whatever
    ordinary exception comes out of [_handle_websocket_message], other than
    the two that have their own clause, the websocket is left, one error line
    is logged and the outer loop starts over without sleeping. The handler's
    writes stay. *)
Theorem handler_exception_drops_the_connection env session (reg reg1 : registry) w w1 e :
  _handle_websocket_message env reg w = (reg1, w1, Raise e) ->
  is_Exception e = true ->
  e <> gaierror ->
  e <> ConnectionRefusedError ->
  step host apikey (Connected session) env reg w
  = (reg1,
     World (n_http w1) (n_connect w1) (n_recv w1) (n_ping w1)
       (trace w1 ++ [WsClose; Log "error" "Unhadled Exception occured in WebSocket loop: %s"]),
     Ok Disconnected).
Proof.
  intros E He Hg Hr.
  unfold step, try_except, bind at 1. rewrite E.
  destruct e; try discriminate He; try (now destruct Hg); try (now destruct Hr);
    unfold on_exception, bind, log, emit, ret; simpl; rewrite <- ?app_assoc; reflexivity.
Qed.

End Supervisor.

(** X17 at work: a cover event without [moving] and a frame that is no JSON
    both end the session of the websocket. *)
Lemma handler_exception_drops_the_connection_witness :
  step "wiser.local" "secret" (Connected 0)
    (Script Scenario.always_500 Scenario.silent_ws
       (fun _ => Ok (Json (load_event 7 [("level", VInt 2500)]))) Scenario.silent_ws)
    Scenario.home initial
  = (Scenario.home,
     World 0 0 1 0
       [WsRecv; Log "debug" "Reveived the following message form wiser: %s";
        WsClose; Log "error" "Unhadled Exception occured in WebSocket loop: %s"],
     Ok Disconnected)
  /\ step "wiser.local" "secret" (Connected 0)
       (Script Scenario.always_500 Scenario.silent_ws (fun _ => Ok NotJson) Scenario.silent_ws)
       Scenario.home initial
     = (Scenario.home,
        World 0 0 1 0
          [WsRecv; Log "debug" "Reveived the following message form wiser: %s";
           WsClose; Log "error" "Unhadled Exception occured in WebSocket loop: %s"],
        Ok Disconnected).
Proof.
  split.
  - apply (handler_exception_drops_the_connection "wiser.local" "secret"
             (Script Scenario.always_500 Scenario.silent_ws
                (fun _ => Ok (Json (load_event 7 [("level", VInt 2500)]))) Scenario.silent_ws)
             0%nat Scenario.home Scenario.home initial
             (World 0 0 1 0
                [WsRecv; Log "debug" "Reveived the following message form wiser: %s"])
             (KeyError "moving"));
      [reflexivity | reflexivity | discriminate | discriminate].
  - apply (handler_exception_drops_the_connection "wiser.local" "secret"
             (Script Scenario.always_500 Scenario.silent_ws (fun _ => Ok NotJson)
                Scenario.silent_ws)
             0%nat Scenario.home Scenario.home initial
             (World 0 0 1 0
                [WsRecv; Log "debug" "Reveived the following message form wiser: %s"])
             JSONDecodeError);
      [reflexivity | reflexivity | discriminate | discriminate].
Defined.

(** X16 at work: the connection is gone and the ping is cancelled; the task
    sleeps ten seconds and stays in session 0. *)
Lemma cancellation_is_swallowed_by_the_ping_witness :
  exists w',
    step "wiser.local" "secret" (Connected 0)
      (Script Scenario.always_500 Scenario.silent_ws Scenario.no_frames
         (fun _ => Raise CancelledError))
      Scenario.home initial
    = (Scenario.home, w', Ok (Connected 0))
    /\ sleeps (trace w') = sleeps (trace initial) ++ [10].
Proof.
  exact (proj2 (proj2 (cancellation_is_swallowed_by_the_ping "wiser.local" "secret"
                         (Script Scenario.always_500 Scenario.silent_ws Scenario.no_frames
                            (fun _ => Raise CancelledError))
                         0%nat Scenario.home initial))
           eq_refl eq_refl).
Defined.

End MainMore.
